(** * The rep cell: task processor and task scheduler

    A shallow embedding of [generator/internal/task_processor.go] and of the
    admission scenarios of [task_scheduler/task_scheduler_test.go], with the
    properties of the cell's two state machines stated over the calls they
    make on their collaborators. *)

From Stdlib Require QArith_base.
From stdpp Require Import base strings gmap list.

Open Scope string_scope.
Open Scope list_scope.

(** ** Effects

    Every collaborator of the cell (the store, the container delegate, the
    logger) is reached through a blocking call.  A computation threads the
    state [W] of the outside world and writes down, in order, the events [E]
    it caused. *)

Definition act (E W A : Type) : Type := W → A * W * list E.

Definition act_ret {E W A} (a : A) : act E W A := λ w, (a, w, []).

Definition act_bind {E W A B} (k : A → act E W B) (m : act E W A) : act E W B :=
  λ w, let '(a, w1, t1) := m w in
       let '(b, w2, t2) := k a w1 in
       (b, w2, t1 ++ t2).

#[export] Instance act_mret {E W} : MRet (act E W) := @act_ret E W.
#[export] Instance act_mbind {E W} : MBind (act E W) := @act_bind E W.

(** A call on a collaborator: [op] is the collaborator's answer in the present
    world, [ev] the entry written to the trace for that answer. *)
Definition perform {E W R} (op : W → R * W) (ev : R → E) : act E W R :=
  λ w, let '(r, w') := op w in (r, w', [ev r]).

(** An effect that needs no answer from the world. *)
Definition emit {E W} (e : E) : act E W unit := λ w, (tt, w, [e]).

Definition result_of {E W A} (r : A * W * list E) : A := r.1.1.
Definition world_of {E W A} (r : A * W * list E) : W := r.1.2.
Definition trace_of {E W A} (r : A * W * list E) : list E := r.2.

(** ** Collaborators' data *)

Module bbserrors.
(** The error values the store hands back.  [TaskStateTransitionError] is a
    struct type (any of its values passes the type assertion), the next two
    are sentinel values compared with [==]; [ErrOther] is every other error,
    a lost connection for one. *)
Inductive error : Type :=
| TaskStateTransitionError (detail : string)
| ErrTaskRunningOnDifferentCell
| ErrStoreResourceNotFound
| ErrOther (msg : string).

#[export] Instance error_eq_dec : EqDecision error.
Proof. solve_decision. Defined.

(** [_, ok := err.(bbserrors.TaskStateTransitionError)] *)
Definition isTaskStateTransitionError (err : error) : bool :=
  match err with
  | TaskStateTransitionError _ => true
  | _ => false
  end.
End bbserrors.
Export bbserrors.

Module executor.
Inductive State : Type :=
| StateInvalid
| StateReserved
| StateInitializing
| StateCreated
| StateRunning
| StateCompleted.

#[export] Instance State_eq_dec : EqDecision State.
Proof. solve_decision. Defined.

Record ContainerRunResult : Type := {
  Failed : bool;
  FailureReason : string
}.

Record Container : Type := {
  Guid : string;
  State_ : State;
  RunResult : ContainerRunResult;
  Tags : gmap string string
}.

(** Reading a Go map at a key it does not hold gives the zero value. *)
Definition tag (c : Container) (key : string) : string :=
  default "" (Tags c !! key).
End executor.
Export executor.

Module lager.
Inductive LogLevel : Type := DEBUG | INFO | ERROR.

(** A value of [lager.Data]: the processor stores a string and a state. *)
Inductive datum : Type :=
| DString (s : string)
| DState (s : State).

(** [lager.Data], a map from keys to values. *)
Definition Data : Type := gmap string datum.

(** [lager.Logger] is an interface of a library outside the sources read
    here.  A logger is kept as the way it was obtained, made for a component
    or opened as a session of another logger with a task and data; what the
    library makes of a session's task and data is not modelled. *)
Inductive Logger : Type :=
| NewLogger (component : string)
| Session (parent : Logger) (task : string) (data : Data).
End lager.
Export lager.

(** ** The task processor *)

Definition TaskCompletionReasonMissingContainer : string := "task container does not exist".
Definition TaskCompletionReasonFailedToRunContainer : string := "failed to run container".
Definition TaskCompletionReasonInvalidTransition : string := "invalid state transition".
Definition TaskCompletionReasonFailedToFetchResult : string := "failed to fetch result".

(** [bbs.RepBBS], as far as the processor uses it. *)
Class RepBBS (W : Type) : Type := {
  StartTask : Logger → string → string → W → (bool * option error) * W;
  CompleteTask : Logger → string → string → bool → string → string → W → option error * W;
  FailTask : Logger → string → string → W → option error * W
}.

(** [ContainerDelegate]. *)
Class ContainerDelegate (W : Type) : Type := {
  RunContainer : Logger → string → W → bool * W;
  DeleteContainer : Logger → string → W → unit * W;
  FetchContainerResultFile : Logger → string → string → W → (string * option error) * W
}.

(** What the processor did, each call with the answer it got. *)
Inductive event : Type :=
| EvLog (logger : Logger) (level : LogLevel) (msg : string) (err : option error)
| EvStartTask (logger : Logger) (guid cellID : string) (changed : bool) (err : option error)
| EvCompleteTask (logger : Logger) (guid cellID : string) (failed : bool)
    (failureReason result : string) (err : option error)
| EvFailTask (logger : Logger) (guid reason : string) (err : option error)
| EvRunContainer (logger : Logger) (guid : string) (ok : bool)
| EvDeleteContainer (logger : Logger) (guid : string)
| EvFetchContainerResultFile (logger : Logger) (guid filename : string)
    (content : string) (err : option error).

(** The call alone: no logger, no answer.  Log lines are not calls. *)
Inductive op : Type :=
| OpStartTask (guid cellID : string)
| OpCompleteTask (guid cellID : string) (failed : bool) (failureReason result : string)
| OpFailTask (guid reason : string)
| OpRunContainer (guid : string)
| OpDeleteContainer (guid : string)
| OpFetchContainerResultFile (guid filename : string).

#[export] Instance op_eq_dec : EqDecision op.
Proof. solve_decision. Defined.

Definition op_of (e : event) : option op :=
  match e with
  | EvLog _ _ _ _ => None
  | EvStartTask _ g c _ _ => Some (OpStartTask g c)
  | EvCompleteTask _ g c f r res _ => Some (OpCompleteTask g c f r res)
  | EvFailTask _ g r _ => Some (OpFailTask g r)
  | EvRunContainer _ g _ => Some (OpRunContainer g)
  | EvDeleteContainer _ g => Some (OpDeleteContainer g)
  | EvFetchContainerResultFile _ g f _ _ => Some (OpFetchContainerResultFile g f)
  end.

Definition ops (t : list event) : list op := omap op_of t.

Definition is_store_op (o : op) : bool :=
  match o with
  | OpStartTask _ _ | OpCompleteTask _ _ _ _ _ | OpFailTask _ _ => true
  | _ => false
  end.

Definition is_delete (o : op) : bool :=
  match o with OpDeleteContainer _ => true | _ => false end.

Definition is_run (o : op) : bool :=
  match o with OpRunContainer _ => true | _ => false end.

Definition is_fetch (o : op) : bool :=
  match o with OpFetchContainerResultFile _ _ => true | _ => false end.

Definition is_complete (o : op) : bool :=
  match o with OpCompleteTask _ _ _ _ _ => true | _ => false end.

Definition only (f : op → bool) (l : list op) : list op := List.filter f l.

Record taskProcessor : Type := {
  cellID : string
}.

Section TaskProcessor.
Context {W : Type} `{!RepBBS W} `{!ContainerDelegate W}.

(** [rep.ResultFileTag], a constant of a package that is not part of the
    sources read here. *)
Variable ResultFileTag : string.

Local Abbreviation proc := (act event W).

Definition Debug (logger : Logger) (msg : string) : proc unit :=
  emit (EvLog logger DEBUG msg None).
Definition Info (logger : Logger) (msg : string) : proc unit :=
  emit (EvLog logger INFO msg None).
Definition Error (logger : Logger) (msg : string) (err : error) : proc unit :=
  emit (EvLog logger ERROR msg (Some err)).

Definition failTask (p : taskProcessor) (logger : Logger) (guid reason : string) : proc unit :=
  Info logger "failing-task";;
  err ← perform (FailTask logger guid reason) (EvFailTask logger guid reason);
  match err with
  | Some e => Error logger "failed-failing-task" e
  | None => Info logger "succeeded-failing-task"
  end.

Definition deleteContainer (logger : Logger) (guid : string) : proc unit :=
  perform (DeleteContainer logger guid) (λ _, EvDeleteContainer logger guid).

Definition startTask (p : taskProcessor) (logger : Logger) (guid : string) : proc bool :=
  Info logger "starting-task";;
  r ← perform (StartTask logger guid (cellID p))
        (λ r, EvStartTask logger guid (cellID p) r.1 r.2);
  let '(changed, err) := (r : bool * option error) in
  match err with
  | Some e =>
      Error logger "failed-starting-task" e;;
      (if isTaskStateTransitionError e then deleteContainer logger guid
       else if decide (e = ErrTaskRunningOnDifferentCell) then deleteContainer logger guid
       else if decide (e = ErrStoreResourceNotFound) then deleteContainer logger guid
       else mret tt);;
      mret false
  | None =>
      (if changed then Info logger "succeeded-starting-task"
       else Info logger "task-already-started");;
      mret changed
  end.

Definition completeTask (p : taskProcessor) (logger : Logger) (container : Container) : proc unit :=
  let finish (result : string) : proc unit :=
    Info logger "completing-task";;
    err ← perform (CompleteTask logger (Guid container) (cellID p)
                     (Failed (RunResult container))
                     (FailureReason (RunResult container)) result)
                  (EvCompleteTask logger (Guid container) (cellID p)
                     (Failed (RunResult container))
                     (FailureReason (RunResult container)) result);
    match err with
    | Some e =>
        Error logger "failed-completing-task" e;;
        if isTaskStateTransitionError e
        then failTask p logger (Guid container) TaskCompletionReasonInvalidTransition
        else mret tt
    | None => Info logger "succeeded-completing-task"
    end in
  if negb (Failed (RunResult container)) then
    r ← perform (FetchContainerResultFile logger (Guid container)
                   (tag container ResultFileTag))
          (λ r, EvFetchContainerResultFile logger (Guid container)
                  (tag container ResultFileTag) r.1 r.2);
    let '(result, err) := (r : string * option error) in
    match err with
    | Some _ => failTask p logger (Guid container) TaskCompletionReasonFailedToFetchResult
    | None => finish result
    end
  else finish "".

Definition processActiveContainer (p : taskProcessor) (logger : Logger)
    (container : Container) : proc unit :=
  ok ← startTask p logger (Guid container);
  if negb ok then mret tt
  else
    ok ← perform (RunContainer logger (Guid container))
           (EvRunContainer logger (Guid container));
    if negb ok
    then failTask p logger (Guid container) TaskCompletionReasonFailedToRunContainer
    else mret tt.

Definition processCompletedContainer (p : taskProcessor) (logger : Logger)
    (container : Container) : proc unit :=
  completeTask p logger container;;
  deleteContainer logger (Guid container).

(** The logger [Process] works with: the caller's, in a session of its own. *)
Definition sessionLogger (logger : Logger) (container : Container) : Logger :=
  Session logger "task-processor"
    (<["container-guid" := DString (Guid container)]>
       (<["container-state" := DState (State_ container)]> (∅ : Data))).

Definition Process (p : taskProcessor) (logger : Logger) (container : Container) : proc unit :=
  let logger := sessionLogger logger container in
  Debug logger "starting";;
  match State_ container with
  | StateReserved =>
      Debug logger "processing-reserved-container";;
      processActiveContainer p logger container
  | StateInitializing =>
      Debug logger "processing-initializing-container";;
      processActiveContainer p logger container
  | StateCreated =>
      Debug logger "processing-created-container";;
      processActiveContainer p logger container
  | StateRunning =>
      Debug logger "processing-running-container";;
      processActiveContainer p logger container
  | StateCompleted =>
      Debug logger "processing-completed-container";;
      processCompletedContainer p logger container
  | StateInvalid => mret tt
  end;;
  Debug logger "finished".
End TaskProcessor.

(** ** Classifications the properties are stated with *)

(** The three errors after which the task cannot be run on this cell. *)
Definition terminal (e : error) : bool :=
  match e with
  | TaskStateTransitionError _
  | ErrTaskRunningOnDifferentCell
  | ErrStoreResourceNotFound => true
  | ErrOther _ => false
  end.

(** What follows the store's answer to [CompleteTask]. *)
Definition afterComplete guid (answer : option error) : list op :=
  match answer with
  | Some e =>
      if isTaskStateTransitionError e
      then [OpFailTask guid TaskCompletionReasonInvalidTransition]
      else []
  | None => []
  end.

(** The states before Completed, all handled alike. *)
Definition active (s : State) : bool :=
  match s with
  | StateReserved | StateInitializing | StateCreated | StateRunning => true
  | _ => false
  end.

(** The entry of a trace is a CompleteTask call. *)
Definition is_complete_event (e : event) : bool :=
  match e with EvCompleteTask _ _ _ _ _ _ _ => true | _ => false end.

(** No entry of the trace is a CompleteTask call. *)
Definition no_complete (t : list event) : bool :=
  forallb (λ e, negb (is_complete_event e)) t.

(** The container a call is made for. *)
Definition op_guid (o : op) : string :=
  match o with
  | OpStartTask g _ | OpCompleteTask g _ _ _ _ | OpFailTask g _
  | OpRunContainer g | OpDeleteContainer g | OpFetchContainerResultFile g _ => g
  end.

(** The cell a store call is made in the name of. *)
Definition op_cell (o : op) : option string :=
  match o with
  | OpStartTask _ cell | OpCompleteTask _ cell _ _ _ => Some cell
  | _ => None
  end.

Definition is_start (o : op) : bool :=
  match o with OpStartTask _ _ => true | _ => false end.

Definition is_fail (o : op) : bool :=
  match o with OpFailTask _ _ => true | _ => false end.

(** The logger a log line is written to, or a call is handed. *)
Definition event_logger (e : event) : Logger :=
  match e with
  | EvLog lg _ _ _ | EvStartTask lg _ _ _ _ | EvCompleteTask lg _ _ _ _ _ _
  | EvFailTask lg _ _ _ | EvRunContainer lg _ _ | EvDeleteContainer lg _
  | EvFetchContainerResultFile lg _ _ _ _ => lg
  end.

(** The error the store answered a call with. *)
Definition store_error (e : event) : option error :=
  match e with
  | EvStartTask _ _ _ _ err | EvCompleteTask _ _ _ _ _ _ err | EvFailTask _ _ _ err => err
  | _ => None
  end.

(** The error an ERROR line reports. *)
Definition logged_error (e : event) : option error :=
  match e with
  | EvLog _ ERROR _ err => err
  | _ => None
  end.

(** Every error the store answered with in [t] is on an ERROR line of [lg]
    in [t]. *)
Definition errors_logged (lg : Logger) (t : list event) : Prop :=
  ∀ ev e, ev ∈ t → store_error ev = Some e → ∃ msg, EvLog lg ERROR msg (Some e) ∈ t.

(** The call sequences of the two branches of [Process], for the container
    [g], the cell [cell] and a run result [failed], [reason]; [file] is the
    path the result is fetched from. *)
Inductive active_calls (g cell : string) : list op → Prop :=
| calls_start : active_calls g cell [OpStartTask g cell]
| calls_start_delete : active_calls g cell [OpStartTask g cell; OpDeleteContainer g]
| calls_start_run : active_calls g cell [OpStartTask g cell; OpRunContainer g]
| calls_start_run_fail :
    active_calls g cell
      [OpStartTask g cell; OpRunContainer g;
       OpFailTask g TaskCompletionReasonFailedToRunContainer].

Inductive completed_calls (g cell : string) (failed : bool) (reason file : string)
  : list op → Prop :=
| calls_fetch_failed :
    failed = false →
    completed_calls g cell failed reason file
      [OpFetchContainerResultFile g file;
       OpFailTask g TaskCompletionReasonFailedToFetchResult;
       OpDeleteContainer g]
| calls_fetched result answer :
    failed = false →
    completed_calls g cell failed reason file
      (OpFetchContainerResultFile g file
       :: OpCompleteTask g cell false reason result
       :: afterComplete g answer ++ [OpDeleteContainer g])
| calls_failed_run answer :
    failed = true →
    completed_calls g cell failed reason file
      (OpCompleteTask g cell true reason ""
       :: afterComplete g answer ++ [OpDeleteContainer g]).

(** ** Scripted collaborators

    Doubles in the manner of the generated fakes the processor is tested
    with: every call gives the canned answer and leaves the script as it is. *)

Module fakes.
Record Returns : Type := {
  StartTaskReturns : bool * option error;
  CompleteTaskReturns : option error;
  FailTaskReturns : option error;
  RunContainerReturns : bool;
  FetchContainerResultFileReturns : string * option error
}.

#[export] Instance FakeRepBBS : RepBBS Returns := {|
  StartTask _ _ _ w := (StartTaskReturns w, w);
  CompleteTask _ _ _ _ _ _ w := (CompleteTaskReturns w, w);
  FailTask _ _ _ w := (FailTaskReturns w, w)
|}.

#[export] Instance FakeContainerDelegate : ContainerDelegate Returns := {|
  RunContainer _ _ w := (RunContainerReturns w, w);
  DeleteContainer _ _ w := (tt, w);
  FetchContainerResultFile _ _ _ w := (FetchContainerResultFileReturns w, w)
|}.

Definition happy : Returns := {|
  StartTaskReturns := (true, None);
  CompleteTaskReturns := None;
  FailTaskReturns := None;
  RunContainerReturns := true;
  FetchContainerResultFileReturns := ("42", None)
|}.

Definition logger : Logger := NewLogger "rep".

Definition container (s : State) (failed : bool) (reason : string) : Container := {|
  Guid := "task-guid";
  State_ := s;
  RunResult := {| Failed := failed; FailureReason := reason |};
  Tags := {["result-file" := "/tmp/result"]}
|}.

Definition processor : taskProcessor := {| cellID := "cell-1" |}.
End fakes.

Module fake_runs.
Import fakes.

(** The store reports the task as started already. *)
Definition alreadyStarted : Returns := {|
  StartTaskReturns := (false, None);
  CompleteTaskReturns := None;
  FailTaskReturns := None;
  RunContainerReturns := true;
  FetchContainerResultFileReturns := ("42", None)
|}.

Definition startFails (e : error) : Returns := {|
  StartTaskReturns := (false, Some e);
  CompleteTaskReturns := None;
  FailTaskReturns := None;
  RunContainerReturns := true;
  FetchContainerResultFileReturns := ("42", None)
|}.

(** Nothing works: no file to fetch, and the store refuses every call. *)
Definition allFails (e : error) : Returns := {|
  StartTaskReturns := (false, Some e);
  CompleteTaskReturns := Some e;
  FailTaskReturns := Some e;
  RunContainerReturns := false;
  FetchContainerResultFileReturns := ("", Some (ErrOther "no such file"))
|}.

Definition completeFails (e : error) : Returns := {|
  StartTaskReturns := (true, None);
  CompleteTaskReturns := Some e;
  FailTaskReturns := None;
  RunContainerReturns := true;
  FetchContainerResultFileReturns := ("42", None)
|}.

Definition kerpow : error := ErrOther "kerpow".
Definition conflict : error := TaskStateTransitionError "completed -> completed".

Definition run (s : State) (failed : bool) (reason : string) (w : Returns) :=
  Process "result-file" processor logger (container s failed reason) w.

(** What the processor does once CompleteTask has refused a failed run. *)
Definition afterRefusal (e : error) (failing : list event) : list event :=
  let lg := sessionLogger logger (container StateCompleted true "boom") in
  EvLog lg ERROR "failed-completing-task" (Some e)
  :: failing ++ [EvDeleteContainer lg "task-guid"; EvLog lg DEBUG "finished" None].

Definition beforeComplete : list event :=
  let lg := sessionLogger logger (container StateCompleted true "boom") in
  [EvLog lg DEBUG "starting" None;
   EvLog lg DEBUG "processing-completed-container" None;
   EvLog lg INFO "completing-task" None].

Definition failing : list event :=
  let lg := sessionLogger logger (container StateCompleted true "boom") in
  [EvLog lg INFO "failing-task" None;
   EvFailTask lg "task-guid" "invalid state transition" None;
   EvLog lg INFO "succeeded-failing-task" None].

(** A Completed container that was allocated without a result-file tag. *)
Definition untagged : Container := {|
  Guid := "task-guid";
  State_ := StateCompleted;
  RunResult := {| Failed := false; FailureReason := "" |};
  Tags := ∅
|}.

(** The run is refused, and so is the FailTask that reports it. *)
Definition runFails (e : error) : Returns := {|
  StartTaskReturns := (true, None);
  CompleteTaskReturns := None;
  FailTaskReturns := Some e;
  RunContainerReturns := false;
  FetchContainerResultFileReturns := ("42", None)
|}.
End fake_runs.

(** * The task scheduler

    [task_scheduler.go] is not among the sources; what is, is its test,
    [task_scheduler_test.go]: the data it builds, the hooks it installs on the
    executor's client, the store double it queries and what it expects. *)

Module task_scheduler.

(** ** Data of the test *)

Record EnvironmentVariable : Type := { Key : string; Value : string }.

Record RunAction : Type := {
  Script : string;
  Env : list EnvironmentVariable;
  Timeout : Z
}.

Record ExecutorAction : Type := { Action : RunAction }.

Record LogConfig : Type := {
  LogGuid : string;
  SourceName : string;
  Index : option Z
}.

(** [models.Task]; [CpuPercent] is a float in the source, only ever compared
    with the literal it was built from, and kept here as a rational.
    [ResultFile] is the result-file tag the specification gives a task
    (section 3); the test never sets it, which leaves it empty. *)
Record Task : Type := {
  Guid : string;
  Stack : string;
  MemoryMB : Z;
  DiskMB : Z;
  CpuPercent : QArith_base.Q;
  Actions : list ExecutorAction;
  Log : LogConfig;
  ResultFile : string;
  ExecutorID : string;
  ContainerHandle : string
}.

(** [api.ContainerAllocationRequest]: the four fields the test's hook reads,
    and the result-file tag the specification has the allocation carry. *)
Record ContainerAllocationRequest : Type := {
  reqMemoryMB : Z;
  reqDiskMB : Z;
  reqCpuPercent : QArith_base.Q;
  reqLog : LogConfig;
  reqResultFile : string
}.

Record Container : Type := {
  ExecutorGuid : string;
  ContainerGuid : string
}.

Record ContainerRunRequest : Type := { reqActions : list ExecutorAction }.

#[export] Instance EnvironmentVariable_eq_dec : EqDecision EnvironmentVariable.
Proof. solve_decision. Defined.
#[export] Instance RunAction_eq_dec : EqDecision RunAction.
Proof. solve_decision. Defined.
#[export] Instance ExecutorAction_eq_dec : EqDecision ExecutorAction.
Proof. solve_decision. Defined.
#[export] Instance LogConfig_eq_dec : EqDecision LogConfig.
Proof. solve_decision. Defined.
#[export] Instance Q_eq_dec : EqDecision QArith_base.Q.
Proof. solve_decision. Defined.
#[export] Instance Task_eq_dec : EqDecision Task.
Proof. solve_decision. Defined.

(** ** Collaborators *)

(** The store, as the scheduler's test sees it through its double. *)
Class TaskBBS (W : Type) : Type := {
  ClaimTask : Task → string → W → option error * W;
  StartTask : Task → string → string → W → option error * W
}.

(** The executor's client: one method for each hook the test installs. *)
Class ExecutorClient (W : Type) : Type := {
  AllocateContainer : string → ContainerAllocationRequest → W → (Container * option error) * W;
  InitializeContainer : string → W → option error * W;
  Run : string → ContainerRunRequest → W → option error * W;
  DeleteContainer : string → W → option error * W
}.

Inductive call : Type :=
| CallAllocateContainer (guid : string) (req : ContainerAllocationRequest)
| CallClaimTask (task : Task) (executorID : string)
| CallInitializeContainer (guid : string)
| CallStartTask (task : Task) (executorID containerHandle : string)
| CallRun (guid : string) (req : ContainerRunRequest)
| CallDeleteContainer (guid : string).

Definition is_delete (c : call) : bool :=
  match c with CallDeleteContainer _ => true | _ => false end.
Definition is_store (c : call) : bool :=
  match c with CallClaimTask _ _ | CallStartTask _ _ _ => true | _ => false end.

(** ** The scheduler *)

Record TaskScheduler : Type := { stack : string }.

Definition allocationRequest (task : Task) : ContainerAllocationRequest :=
  {| reqMemoryMB := MemoryMB task; reqDiskMB := DiskMB task;
     reqCpuPercent := CpuPercent task; reqLog := Log task;
     reqResultFile := ResultFile task |}.

(** The run request the test's running hook expects: the task's actions. *)
Definition runRequest (task : Task) : ContainerRunRequest :=
  {| reqActions := Actions task |}.

Section Scheduler.
Context {W : Type} `{!TaskBBS W} `{!ExecutorClient W}.

Local Abbreviation sched := (act call W).

Definition allocate (task : Task) : sched (Container * option error) :=
  let req := allocationRequest task in
  perform (AllocateContainer (Guid task) req)
    (λ _, CallAllocateContainer (Guid task) req).

Definition claim (task : Task) (executorID : string) : sched (option error) :=
  perform (ClaimTask task executorID) (λ _, CallClaimTask task executorID).

Definition initialize (guid : string) : sched (option error) :=
  perform (InitializeContainer guid) (λ _, CallInitializeContainer guid).

Definition delete (guid : string) : sched unit :=
  perform (DeleteContainer guid) (λ _, CallDeleteContainer guid);; mret tt.

(** Modelled from the spec: the scheduler's handling of one desired task,
    whose implementation (task_scheduler.go) is missing.  It is the
    algorithm of section 4.1, step by step: (1) a task whose stack is not
    the cell's is ignored; (2) a container is allocated for the task's guid
    with the task's resource request, log configuration and result-file tag,
    and a refused allocation is abandoned; (3) the task is claimed in the
    store, and a refused claim deletes the container; (4) the container is
    initialized, and a failure deletes it; (5) on success the admission ends
    there, without a start or a run call.  The owner the task is claimed for
    is the executor guid the allocation returns, as the test's store double
    records it. *)
Definition handleTaskRequest (s : TaskScheduler) (task : Task) : sched unit :=
  if negb (String.eqb (Stack task) (stack s)) then mret tt
  else
    r ← allocate task;
    let '(container, err) := (r : Container * option error) in
    match err with
    | Some _ => mret tt
    | None =>
        err ← claim task (ExecutorGuid container);
        match err with
        | Some _ => delete (Guid task)
        | None =>
            err ← initialize (Guid task);
            match err with
            | Some _ => delete (Guid task)
            | None => mret tt
            end
        end
    end.
End Scheduler.

(** The operation a call is, whatever its arguments. *)
Inductive callKind : Type :=
| KAllocate | KClaim | KInitialize | KStart | KRun | KDelete.

Definition kind_of (c : call) : callKind :=
  match c with
  | CallAllocateContainer _ _ => KAllocate
  | CallClaimTask _ _ => KClaim
  | CallInitializeContainer _ => KInitialize
  | CallStartTask _ _ _ => KStart
  | CallRun _ _ => KRun
  | CallDeleteContainer _ => KDelete
  end.

(** ** The test's doubles

    The store double and the executor's fake client come from other
    repositories; they are modelled by what the test does with them.  A
    channel is the list of the values sent on it. *)

Module test.
Definition correctStack : string := "my-stack".

Definition stagingTask : Task := {|
  Guid := "task-guid-123";
  Stack := correctStack;
  MemoryMB := 64;
  DiskMB := 1024;
  CpuPercent := QArith_base.Qmake 1 2;
  Actions := [{| Action := {| Script := "the-script";
                              Env := [{| Key := "PATH"; Value := "the-path" |}];
                              Timeout := 500 |} |}];
  Log := {| LogGuid := "some-guid"; SourceName := "XYZ"; Index := Some 0%Z |};
  ResultFile := "";
  ExecutorID := "";
  ContainerHandle := ""
|}.

Definition wrongStackTask : Task := {|
  Guid := "task-guid-123";
  Stack := "asd;oubhasdfbuvasfb";
  MemoryMB := 64;
  DiskMB := 1024;
  CpuPercent := QArith_base.Qmake 1 2;
  Actions := [];
  Log := {| LogGuid := ""; SourceName := ""; Index := None |};
  ResultFile := "";
  ExecutorID := "";
  ContainerHandle := ""
|}.

(** [fake_bbs.FakeRepBBS] *)
Record FakeRepBBS : Type := {
  claimedTasks : list Task;
  startedTasks : list Task;
  claimTaskErr : option error;
  startTaskErr : option error
}.

(** The hooks of [fake_client.FakeClient], by the function the test
    installs. *)
Inductive AllocatingHook : Type := AllocatingUnset | Reserving | ReservingFails.
Inductive InitializingHook : Type := InitializingUnset | Initializing | InitializingFails.
Inductive RunningHook : Type := RunningUnset | Running.
Inductive DeletingHook : Type := DeletingUnset | Deleting.

Record FakeClient : Type := {
  WhenAllocatingContainer : AllocatingHook;
  WhenInitializingContainer : InitializingHook;
  WhenRunning : RunningHook;
  WhenDeletingContainer : DeletingHook
}.

Record Channels : Type := {
  allocateCalled : list unit;
  deletedContainerGuid : list string;
  initCalled : list unit;
  reqChan : list ContainerRunRequest;
  allocatedContainer : list unit
}.

Record World : Type := {
  fakeBBS : FakeRepBBS;
  fakeClient : FakeClient;
  task : Task;
  chans : Channels;
  (** expectations that did not hold inside a hook *)
  failures : list string
}.

Definition withBBS (b : FakeRepBBS) (w : World) : World :=
  {| fakeBBS := b; fakeClient := fakeClient w; task := task w;
     chans := chans w; failures := failures w |}.
Definition withChans (c : Channels) (w : World) : World :=
  {| fakeBBS := fakeBBS w; fakeClient := fakeClient w; task := task w;
     chans := c; failures := failures w |}.
Definition fail (what : string) (w : World) : World :=
  {| fakeBBS := fakeBBS w; fakeClient := fakeClient w; task := task w;
     chans := chans w; failures := failures w ++ [what] |}.

(** An expectation inside a hook: when it does not hold the hook panics,
    the deferred recover notes the failure, and the hook returns the zero
    value [zero] of its results. *)
Definition expect {R} (holds : bool) (what : string) (zero : R)
    (k : World → R * World) (w : World) : R * World :=
  if holds then k w else (zero, fail what w).

Definition fake_ClaimTask (t : Task) (executorID : string) (w : World)
    : option error * World :=
  match claimTaskErr (fakeBBS w) with
  | Some e => (Some e, w)
  | None =>
      let claimed := {| Guid := Guid t; Stack := Stack t; MemoryMB := MemoryMB t;
                        DiskMB := DiskMB t; CpuPercent := CpuPercent t;
                        Actions := Actions t; Log := Log t;
                        ResultFile := ResultFile t;
                        ExecutorID := executorID;
                        ContainerHandle := ContainerHandle t |} in
      (None, withBBS {| claimedTasks := claimedTasks (fakeBBS w) ++ [claimed];
                        startedTasks := startedTasks (fakeBBS w);
                        claimTaskErr := claimTaskErr (fakeBBS w);
                        startTaskErr := startTaskErr (fakeBBS w) |} w)
  end.

Definition started (t : Task) (executorID handle : string) : Task :=
  {| Guid := Guid t; Stack := Stack t; MemoryMB := MemoryMB t;
     DiskMB := DiskMB t; CpuPercent := CpuPercent t;
     Actions := Actions t; Log := Log t; ResultFile := ResultFile t;
     ExecutorID := executorID; ContainerHandle := handle |}.

Definition fake_StartTask (t : Task) (executorID handle : string) (w : World)
    : option error * World :=
  match startTaskErr (fakeBBS w) with
  | Some e => (Some e, w)
  | None =>
      (None, withBBS {| claimedTasks := claimedTasks (fakeBBS w);
                        startedTasks := startedTasks (fakeBBS w)
                                        ++ [started t executorID handle];
                        claimTaskErr := claimTaskErr (fakeBBS w);
                        startTaskErr := startTaskErr (fakeBBS w) |} w)
  end.

Definition noContainer : Container := {| ExecutorGuid := ""; ContainerGuid := "" |}.

Definition fake_AllocateContainer (containerGuid : string)
    (req : ContainerAllocationRequest) (w : World) : (Container * option error) * World :=
  match WhenAllocatingContainer (fakeClient w) with
  | AllocatingUnset => ((noContainer, None), w)
  | Reserving =>
      let zero := (noContainer, None) in
      let w := withChans {| allocateCalled := allocateCalled (chans w) ++ [tt];
                            deletedContainerGuid := deletedContainerGuid (chans w);
                            initCalled := initCalled (chans w);
                            reqChan := reqChan (chans w);
                            allocatedContainer := allocatedContainer (chans w) |} w in
      expect (bool_decide (length (claimedTasks (fakeBBS w)) = 0)) "ClaimedTasks" zero (
      expect (bool_decide (reqMemoryMB req = 64%Z)) "MemoryMB" zero (
      expect (bool_decide (reqDiskMB req = 1024%Z)) "DiskMB" zero (
      expect (bool_decide (reqCpuPercent req = QArith_base.Qmake 1 2)) "CpuPercent" zero (
      expect (bool_decide (reqLog req = Log (task w))) "Log" zero (
      expect (bool_decide (containerGuid = Guid (task w))) "containerGuid" zero (
      λ w, (({| ExecutorGuid := "the-executor-guid"; ContainerGuid := containerGuid |},
             None), w))))))) w
  | ReservingFails =>
      ((noContainer, Some (ErrOther "Something went wrong")),
       withChans {| allocateCalled := allocateCalled (chans w);
                    deletedContainerGuid := deletedContainerGuid (chans w);
                    initCalled := initCalled (chans w);
                    reqChan := reqChan (chans w);
                    allocatedContainer := allocatedContainer (chans w) ++ [tt] |} w)
  end.

Definition fake_InitializeContainer (allocationGuid : string) (w : World)
    : option error * World :=
  match WhenInitializingContainer (fakeClient w) with
  | InitializingUnset => (None, w)
  | Initializing =>
      let w := withChans {| allocateCalled := allocateCalled (chans w);
                            deletedContainerGuid := deletedContainerGuid (chans w);
                            initCalled := initCalled (chans w) ++ [tt];
                            reqChan := reqChan (chans w);
                            allocatedContainer := allocatedContainer (chans w) |} w in
      expect (bool_decide (allocationGuid = Guid (task w))) "allocationGuid" None (
      expect (bool_decide (length (claimedTasks (fakeBBS w)) = 1)) "ClaimedTasks" None (
      expect (bool_decide (length (startedTasks (fakeBBS w)) = 0)) "StartedTasks" None (
      λ w, (None, w)))) w
  | InitializingFails => (Some (ErrOther "Can't initialize"), w)
  end.

Definition fake_Run (allocationGuid : string) (req : ContainerRunRequest) (w : World)
    : option error * World :=
  match WhenRunning (fakeClient w) with
  | RunningUnset => (None, w)
  | Running =>
      expect (bool_decide (length (startedTasks (fakeBBS w)) = 1)) "StartedTasks" None (
      expect (bool_decide (startedTasks (fakeBBS w) !! 0
                           = Some (started (task w) "the-executor-guid" allocationGuid)))
        "StartedTasks[0]" None (
      expect (bool_decide (allocationGuid = Guid (task w))) "allocationGuid" None (
      expect (bool_decide (reqActions req = Actions (task w))) "Actions" None (
      λ w, (None,
            withChans {| allocateCalled := allocateCalled (chans w);
                         deletedContainerGuid := deletedContainerGuid (chans w);
                         initCalled := initCalled (chans w);
                         reqChan := reqChan (chans w) ++ [req];
                         allocatedContainer := allocatedContainer (chans w) |} w))))) w
  end.

Definition fake_DeleteContainer (allocationGuid : string) (w : World)
    : option error * World :=
  match WhenDeletingContainer (fakeClient w) with
  | DeletingUnset => (None, w)
  | Deleting =>
      (None,
       withChans {| allocateCalled := allocateCalled (chans w);
                    deletedContainerGuid := deletedContainerGuid (chans w) ++ [allocationGuid];
                    initCalled := initCalled (chans w);
                    reqChan := reqChan (chans w);
                    allocatedContainer := allocatedContainer (chans w) |} w)
  end.

#[export] Instance World_TaskBBS : TaskBBS World := {|
  ClaimTask := fake_ClaimTask;
  StartTask := fake_StartTask
|}.

#[export] Instance World_ExecutorClient : ExecutorClient World := {|
  AllocateContainer := fake_AllocateContainer;
  InitializeContainer := fake_InitializeContainer;
  Run := fake_Run;
  DeleteContainer := fake_DeleteContainer
|}.

(** *** The contexts of the test *)

Definition emptyBBS : FakeRepBBS :=
  {| claimedTasks := []; startedTasks := []; claimTaskErr := None; startTaskErr := None |}.

Definition emptyChans : Channels :=
  {| allocateCalled := []; deletedContainerGuid := []; initCalled := [];
     reqChan := []; allocatedContainer := [] |}.

Definition context (t : Task) (b : FakeRepBBS) (c : FakeClient) : World :=
  {| fakeBBS := b; fakeClient := c; task := t; chans := emptyChans; failures := [] |}.

(** "when reserving the container succeeds" *)
Definition reservingSucceeds (i : InitializingHook) (r : RunningHook) : FakeClient :=
  {| WhenAllocatingContainer := Reserving; WhenInitializingContainer := i;
     WhenRunning := r; WhenDeletingContainer := Deleting |}.

Definition noHooks : FakeClient :=
  {| WhenAllocatingContainer := AllocatingUnset;
     WhenInitializingContainer := InitializingUnset;
     WhenRunning := RunningUnset; WhenDeletingContainer := DeletingUnset |}.

(** "and the executor successfully starts running the task" *)
Definition startsRunning : World :=
  context stagingTask emptyBBS (reservingSucceeds Initializing Running).

(** "but starting the task fails" *)
Definition startingFails : World :=
  context stagingTask
    {| claimedTasks := []; startedTasks := []; claimTaskErr := None;
       startTaskErr := Some (ErrOther "kerpow") |}
    (reservingSucceeds Initializing RunningUnset).

(** "but initializing the container fails" *)
Definition initializingFails : World :=
  context stagingTask emptyBBS (reservingSucceeds InitializingFails RunningUnset).

(** "but claiming the task fails" *)
Definition claimingFails : World :=
  context stagingTask
    {| claimedTasks := []; startedTasks := [];
       claimTaskErr := Some (ErrOther "data store went away.");
       startTaskErr := None |}
    (reservingSucceeds InitializingUnset RunningUnset).

(** "when reserving the container fails" *)
Definition reservingFails : World :=
  context stagingTask emptyBBS
    {| WhenAllocatingContainer := ReservingFails;
       WhenInitializingContainer := InitializingUnset;
       WhenRunning := RunningUnset; WhenDeletingContainer := DeletingUnset |}.

(** "when the task has the wrong stack" *)
Definition wrongStack : World := context wrongStackTask emptyBBS noHooks.

Definition taskScheduler : TaskScheduler := {| stack := correctStack |}.

(** The world once the scheduler has handled the task the context emitted. *)
Definition handled (w : World) : World :=
  world_of (handleTaskRequest taskScheduler (task w) w).

(** *** What the test expects *)

Definition received {A} (ch : list A) : bool :=
  match ch with [] => false | _ :: _ => true end.
#[local] Arguments received : simpl never.

(** No expectation failed inside a hook. *)
Definition hooksHeld (w : World) : bool := bool_decide (failures w = []).

(** It "makes all calls to the executor" *)
Definition makesAllCalls (w : World) : bool :=
  received (allocateCalled (chans w)) && received (initCalled (chans w))
  && received (reqChan (chans w)).

(** It "deletes the container" *)
Definition deletesTheContainer (w : World) : bool :=
  bool_decide (Guid (task w) ∈ deletedContainerGuid (chans w)).

(** It "does not mark the job as started" *)
Definition notStarted (w : World) : bool :=
  bool_decide (length (startedTasks (fakeBBS w)) = 0).

(** It "does not mark the job as Claimed" *)
Definition notClaimed (w : World) : bool :=
  bool_decide (length (claimedTasks (fakeBBS w)) = 0).

(** It "makes the resource allocation request" *)
Definition makesTheAllocationRequest (w : World) : bool :=
  received (allocatedContainer (chans w)).

(** *** Any scheduler against the doubles

    Whatever a scheduler does comes down to a sequence of calls. *)

Definition do_call (c : call) (w : World) : World :=
  match c with
  | CallAllocateContainer g r => (fake_AllocateContainer g r w).2
  | CallClaimTask t i => (fake_ClaimTask t i w).2
  | CallInitializeContainer g => (fake_InitializeContainer g w).2
  | CallStartTask t i h => (fake_StartTask t i h w).2
  | CallRun g r => (fake_Run g r w).2
  | CallDeleteContainer g => (fake_DeleteContainer g w).2
  end.

Definition exec (cs : list call) (w : World) : World :=
  fold_left (λ w c, do_call c w) cs w.

(** *** The happy context, its first steps *)

Definition theContainer : Container :=
  {| ExecutorGuid := "the-executor-guid"; ContainerGuid := "task-guid-123" |}.

(** The happy context after the allocation, and after the claim. *)
Definition reserved : World :=
  (AllocateContainer "task-guid-123" (allocationRequest stagingTask) startsRunning).2.
Definition claimed : World := (ClaimTask stagingTask "the-executor-guid" reserved).2.

(** *** The order the hooks watch over

    What the doubles' state says of the calls made so far, [k] being their
    kinds in order, as long as no expectation of a hook has failed. *)

Record ordered (k : list callKind) (w : World) : Prop := {
  ordered_claimed :
    received (initCalled (chans w)) = true → claimedTasks (fakeBBS w) ≠ [];
  ordered_started :
    received (reqChan (chans w)) = true → startedTasks (fakeBBS w) ≠ [];
  ordered_allocate :
    received (allocateCalled (chans w)) = true → [KAllocate] `sublist_of` k;
  ordered_claim :
    received (allocateCalled (chans w)) = true →
    claimedTasks (fakeBBS w) ≠ [] →
    [KAllocate; KClaim] `sublist_of` k;
  ordered_initialize :
    received (allocateCalled (chans w)) = true →
    received (initCalled (chans w)) = true →
    [KAllocate; KClaim; KInitialize] `sublist_of` k;
  ordered_start :
    received (allocateCalled (chans w)) = true →
    received (initCalled (chans w)) = true →
    startedTasks (fakeBBS w) ≠ [] →
    [KAllocate; KClaim; KInitialize; KStart] `sublist_of` k;
  ordered_run :
    received (allocateCalled (chans w)) = true →
    received (initCalled (chans w)) = true →
    received (reqChan (chans w)) = true →
    [KAllocate; KClaim; KInitialize; KStart; KRun] `sublist_of` k
}.

(** *** What the hooks watch of the start and the run

    What the doubles' state says of the calls [cs] made so far, as long as
    no expectation of a hook has failed: the initialize hook has seen the
    task's guid and no started task, the running hook one started task, the
    expected one, and a request with the task's actions. *)

Record watched (cs : list call) (w : World) : Prop := {
  watched_started :
    received (reqChan (chans w)) = true → startedTasks (fakeBBS w) ≠ [];
  watched_initialize :
    received (initCalled (chans w)) = true →
    [CallInitializeContainer (Guid (task w))] `sublist_of` cs;
  watched_start :
    received (initCalled (chans w)) = true →
    ∀ x, head (startedTasks (fakeBBS w)) = Some x →
    ∃ t e h,
      x = started t e h
      ∧ [CallInitializeContainer (Guid (task w)); CallStartTask t e h] `sublist_of` cs;
  watched_run :
    received (initCalled (chans w)) = true →
    received (reqChan (chans w)) = true →
    ∃ t e h req,
      [CallInitializeContainer (Guid (task w)); CallStartTask t e h;
       CallRun (Guid (task w)) req] `sublist_of` cs
      ∧ started t e h = started (task w) "the-executor-guid" (Guid (task w))
      ∧ reqActions req = Actions (task w)
}.

End test.
End task_scheduler.

(** * Properties *)

(** ** Running computations *)

Section ActFacts.
Context {E W : Type}.

Lemma run_bind {A B} (m : act E W A) (k : A → act E W B) (w : W) :
  (m ≫= k) w =
  (result_of (k (result_of (m w)) (world_of (m w))),
   world_of (k (result_of (m w)) (world_of (m w))),
   trace_of (m w) ++ trace_of (k (result_of (m w)) (world_of (m w)))).
Proof.
  unfold mbind, act_mbind, act_bind, result_of, world_of, trace_of.
  destruct (m w) as [[a w1] t1]; simpl.
  destruct (k a w1) as [[b w2] t2]; reflexivity.
Qed.

Lemma trace_bind {A B} (m : act E W A) (k : A → act E W B) (w : W) :
  trace_of ((m ≫= k) w) =
  trace_of (m w) ++ trace_of (k (result_of (m w)) (world_of (m w))).
Proof. rewrite run_bind; reflexivity. Qed.

Lemma world_bind {A B} (m : act E W A) (k : A → act E W B) (w : W) :
  world_of ((m ≫= k) w) = world_of (k (result_of (m w)) (world_of (m w))).
Proof. rewrite run_bind; reflexivity. Qed.

Lemma result_bind {A B} (m : act E W A) (k : A → act E W B) (w : W) :
  result_of ((m ≫= k) w) = result_of (k (result_of (m w)) (world_of (m w))).
Proof. rewrite run_bind; reflexivity. Qed.

Lemma run_ret {A} (a : A) (w : W) : (mret a : act E W A) w = (a, w, []).
Proof. reflexivity. Qed.

Lemma run_emit (e : E) (w : W) : emit e w = (tt, w, [e]).
Proof. reflexivity. Qed.

Lemma run_perform {R} (f : W → R * W) (ev : R → E) (w : W) :
  perform f ev w = ((f w).1, (f w).2, [ev (f w).1]).
Proof. unfold perform; destruct (f w); reflexivity. Qed.
End ActFacts.

Lemma ops_app (s t : list event) : ops (s ++ t) = ops s ++ ops t.
Proof. apply omap_app. Qed.

Lemma only_app (f : op → bool) (s t : list op) : only f (s ++ t) = only f s ++ only f t.
Proof. apply List.filter_app. Qed.

(** Unfolds a run of the processor down to the answers of the collaborators. *)
Ltac run_proc :=
  repeat progress
    (rewrite ?run_bind, ?run_ret, ?run_emit, ?run_perform;
     unfold result_of, world_of, trace_of; simpl).

Section TaskProcessorFacts.
Context {W : Type} `{!RepBBS W} `{!ContainerDelegate W}.
Variable ResultFileTag : string.
Variable p : taskProcessor.

Implicit Types (logger : Logger) (guid reason : string) (w : W) (c : Container).

(** *** failTask: one call on the store, whatever it answers *)

Lemma failTask_ops logger guid reason w :
  ops (trace_of (failTask p logger guid reason w)) = [OpFailTask guid reason].
Proof.
  unfold failTask, Info, Error. run_proc.
  destruct (FailTask logger guid reason w) as [[e|] w']; reflexivity.
Qed.

Lemma failTask_trace logger guid reason w :
  ∃ l1 l2,
    trace_of (failTask p logger guid reason w) =
    [EvLog logger INFO "failing-task" None;
     EvFailTask logger guid reason (FailTask logger guid reason w).1;
     EvLog logger l1 l2 (FailTask logger guid reason w).1].
Proof.
  unfold failTask, Info, Error. run_proc.
  destruct (FailTask logger guid reason w) as [[e|] w']; simpl; eauto.
Qed.

Lemma deleteContainer_ops logger guid w :
  ops (trace_of (deleteContainer logger guid w)) = [OpDeleteContainer guid].
Proof. unfold deleteContainer. run_proc. reflexivity. Qed.

(** *** startTask *)

Lemma startTask_ok logger guid w changed w' :
  StartTask logger guid (cellID p) w = ((changed, None), w') →
  result_of (startTask p logger guid w) = changed ∧
  world_of (startTask p logger guid w) = w' ∧
  ops (trace_of (startTask p logger guid w)) = [OpStartTask guid (cellID p)].
Proof.
  intros Hst. unfold startTask, Info. run_proc. rewrite Hst; simpl.
  destruct changed; auto.
Qed.

Lemma startTask_err logger guid w changed e w' :
  StartTask logger guid (cellID p) w = ((changed, Some e), w') →
  result_of (startTask p logger guid w) = false ∧
  ops (trace_of (startTask p logger guid w)) =
    OpStartTask guid (cellID p) :: (if terminal e then [OpDeleteContainer guid] else []).
Proof.
  intros Hst. unfold startTask, Info, Error, deleteContainer. run_proc.
  rewrite Hst; simpl.
  destruct e; run_proc; auto.
Qed.

(** *** completeTask *)

Lemma completeTask_failed logger c w :
  Failed (RunResult c) = true →
  ops (trace_of (completeTask ResultFileTag p logger c w)) =
    OpCompleteTask (Guid c) (cellID p) true (FailureReason (RunResult c)) ""
    :: afterComplete (Guid c)
         (CompleteTask logger (Guid c) (cellID p) true (FailureReason (RunResult c)) "" w).1.
Proof.
  intros Hf. unfold completeTask, Info, Error. rewrite Hf; simpl. run_proc.
  destruct (CompleteTask _ _ _ _ _ _ w) as [[e|] w1]; run_proc; [|reflexivity].
  destruct (isTaskStateTransitionError e); run_proc; [|reflexivity].
  f_equal. apply failTask_ops.
Qed.

Lemma completeTask_fetch_failed logger c w content e w1 :
  Failed (RunResult c) = false →
  FetchContainerResultFile logger (Guid c) (tag c ResultFileTag) w = ((content, Some e), w1) →
  ops (trace_of (completeTask ResultFileTag p logger c w)) =
    [OpFetchContainerResultFile (Guid c) (tag c ResultFileTag);
     OpFailTask (Guid c) TaskCompletionReasonFailedToFetchResult].
Proof.
  intros Hf Hfetch. unfold completeTask. rewrite Hf; simpl. run_proc.
  rewrite Hfetch; simpl. f_equal. apply failTask_ops.
Qed.

Lemma completeTask_fetched logger c w content w1 :
  Failed (RunResult c) = false →
  FetchContainerResultFile logger (Guid c) (tag c ResultFileTag) w = ((content, None), w1) →
  ops (trace_of (completeTask ResultFileTag p logger c w)) =
    OpFetchContainerResultFile (Guid c) (tag c ResultFileTag)
    :: OpCompleteTask (Guid c) (cellID p) false (FailureReason (RunResult c)) content
    :: afterComplete (Guid c)
         (CompleteTask logger (Guid c) (cellID p) false
            (FailureReason (RunResult c)) content w1).1.
Proof.
  intros Hf Hfetch. unfold completeTask, Info, Error. rewrite Hf; simpl. run_proc.
  rewrite Hfetch; simpl. run_proc.
  destruct (CompleteTask _ _ _ _ _ _ w1) as [[e|] w2]; run_proc; [|reflexivity].
  destruct (isTaskStateTransitionError e); run_proc; [|reflexivity].
  do 2 f_equal. apply failTask_ops.
Qed.

Lemma afterComplete_no_delete guid answer :
  only is_delete (afterComplete guid answer) = [].
Proof.
  destruct answer as [e|]; [|reflexivity].
  unfold afterComplete; destruct (isTaskStateTransitionError e); reflexivity.
Qed.

(** Finalizing never deletes the container itself. *)
Lemma completeTask_no_delete logger c w :
  only is_delete (ops (trace_of (completeTask ResultFileTag p logger c w))) = [].
Proof.
  destruct (Failed (RunResult c)) eqn:Hf.
  - rewrite completeTask_failed by done. simpl. apply afterComplete_no_delete.
  - destruct (FetchContainerResultFile logger (Guid c) (tag c ResultFileTag) w)
      as [[content [e|]] w1] eqn:Hfetch.
    + erewrite completeTask_fetch_failed by done. reflexivity.
    + erewrite completeTask_fetched by done. simpl. apply afterComplete_no_delete.
Qed.

(** *** The two branches of the processor *)

Lemma processCompletedContainer_ops logger c w :
  ops (trace_of (processCompletedContainer ResultFileTag p logger c w)) =
    ops (trace_of (completeTask ResultFileTag p logger c w)) ++ [OpDeleteContainer (Guid c)].
Proof.
  unfold processCompletedContainer. rewrite trace_bind, ops_app.
  f_equal. apply deleteContainer_ops.
Qed.

Lemma processActiveContainer_err logger c w changed e w' :
  StartTask logger (Guid c) (cellID p) w = ((changed, Some e), w') →
  ops (trace_of (processActiveContainer p logger c w)) =
    OpStartTask (Guid c) (cellID p)
    :: (if terminal e then [OpDeleteContainer (Guid c)] else []).
Proof.
  intros Hst. destruct (startTask_err _ _ _ _ _ _ Hst) as [Hres Hops].
  unfold processActiveContainer. rewrite trace_bind, ops_app, Hops, Hres; simpl.
  f_equal. apply app_nil_r.
Qed.

Lemma processActiveContainer_unchanged logger c w w' :
  StartTask logger (Guid c) (cellID p) w = ((false, None), w') →
  ops (trace_of (processActiveContainer p logger c w)) = [OpStartTask (Guid c) (cellID p)].
Proof.
  intros Hst. destruct (startTask_ok _ _ _ _ _ Hst) as (Hres & _ & Hops).
  unfold processActiveContainer. rewrite trace_bind, ops_app, Hops, Hres; simpl.
  reflexivity.
Qed.

Lemma processActiveContainer_changed logger c w w' :
  StartTask logger (Guid c) (cellID p) w = ((true, None), w') →
  ops (trace_of (processActiveContainer p logger c w)) =
    OpStartTask (Guid c) (cellID p) :: OpRunContainer (Guid c)
    :: (if (RunContainer logger (Guid c) w').1 then []
        else [OpFailTask (Guid c) TaskCompletionReasonFailedToRunContainer]).
Proof.
  intros Hst. destruct (startTask_ok _ _ _ _ _ Hst) as (Hres & Hw & Hops).
  unfold processActiveContainer. rewrite trace_bind, ops_app, Hops, Hres, Hw; simpl.
  rewrite trace_bind, run_perform, ops_app; simpl. do 2 f_equal.
  destruct (RunContainer logger (Guid c) w') as [[] w2]; simpl.
  - reflexivity.
  - apply failTask_ops.
Qed.

(** *** Process *)

Lemma Process_active logger c w :
  active (State_ c) = true →
  ops (trace_of (Process ResultFileTag p logger c w)) =
    ops (trace_of (processActiveContainer p (sessionLogger logger c) c w)).
Proof.
  intros Hs. unfold Process, Debug.
  destruct (State_ c) eqn:Hstate; try discriminate Hs;
    rewrite !trace_bind, !ops_app, !run_emit; simpl;
    apply app_nil_r.
Qed.

Lemma Process_completed logger c w :
  State_ c = StateCompleted →
  ops (trace_of (Process ResultFileTag p logger c w)) =
    ops (trace_of (completeTask ResultFileTag p (sessionLogger logger c) c w))
    ++ [OpDeleteContainer (Guid c)].
Proof.
  intros Hs. unfold Process, Debug. rewrite Hs.
  rewrite !trace_bind, !ops_app, !run_emit; simpl.
  rewrite processCompletedContainer_ops, app_nil_r. reflexivity.
Qed.
(** *** The log of a start that succeeded *)

Lemma startTask_ok_trace logger guid w changed w' :
  StartTask logger guid (cellID p) w = ((changed, None), w') →
  trace_of (startTask p logger guid w) =
    [EvLog logger INFO "starting-task" None;
     EvStartTask logger guid (cellID p) changed None;
     EvLog logger INFO
       (if changed then "succeeded-starting-task" else "task-already-started") None].
Proof.
  intros Hst. unfold startTask, Info. run_proc. rewrite Hst; simpl.
  by destruct changed.
Qed.

Lemma failTask_not_already_started logger guid reason w :
  EvLog logger INFO "task-already-started" None
    ∉ trace_of (failTask p logger guid reason w).
Proof.
  unfold failTask, Info, Error. run_proc.
  destruct (FailTask logger guid reason w) as [[e|] w']; simpl;
    intros Hin; repeat (apply elem_of_cons in Hin as [Hin|Hin]; [discriminate Hin|]);
    by apply elem_of_nil in Hin.
Qed.

(** What [processActiveContainer] does once StartTask has answered without
    an error: the three entries of [startTask], and then something only
    when the task was newly started. *)
Lemma processActiveContainer_ok_trace logger c w changed w' :
  StartTask logger (Guid c) (cellID p) w = ((changed, None), w') →
  ∃ rest,
    trace_of (processActiveContainer p logger c w) =
      [EvLog logger INFO "starting-task" None;
       EvStartTask logger (Guid c) (cellID p) changed None;
       EvLog logger INFO
         (if changed then "succeeded-starting-task" else "task-already-started") None]
      ++ rest
    ∧ (changed = false → rest = [])
    ∧ EvLog logger INFO "task-already-started" None ∉ rest.
Proof.
  intros Hst. destruct (startTask_ok _ _ _ _ _ Hst) as (Hres & Hw & _).
  unfold processActiveContainer.
  rewrite trace_bind, (startTask_ok_trace _ _ _ _ _ Hst), Hres, Hw.
  destruct changed; simpl.
  - eexists. split; [reflexivity|]. split; [discriminate|].
    rewrite trace_bind, run_perform; simpl.
    intros Hin. apply elem_of_cons in Hin as [Hin|Hin]; [discriminate Hin|].
    destruct (RunContainer logger (Guid c) w') as [[] w2]; simpl in Hin.
    + by apply elem_of_nil in Hin.
    + by apply failTask_not_already_started in Hin.
  - exists []. split; [reflexivity|]. split; [done|]. apply not_elem_of_nil.
Qed.
End TaskProcessorFacts.

(** ** Where CompleteTask sits in a trace *)

Lemma no_complete_app (s t : list event) :
  no_complete (s ++ t) = no_complete s && no_complete t.
Proof. apply forallb_app. Qed.

(** A trace without CompleteTask calls does not split around one. *)
Lemma no_complete_no_split (x : event) (t pre post : list event) :
  is_complete_event x = true → no_complete t = true → t ≠ pre ++ x :: post.
Proof.
  intros Hx Ht ->. rewrite no_complete_app in Ht. simpl in Ht.
  rewrite Hx in Ht. simpl in Ht. by rewrite andb_false_r in Ht.
Qed.

(** A trace with a single CompleteTask call splits around a CompleteTask call
    in one way only. *)
Lemma split_unique (x y : event) (l1 l2 r1 r2 : list event) :
  is_complete_event y = true →
  no_complete l1 = true → no_complete l2 = true →
  l1 ++ x :: l2 = r1 ++ y :: r2 →
  l1 = r1 ∧ x = y ∧ l2 = r2.
Proof.
  intros Hy. revert r1.
  induction l1 as [|a l1 IH]; intros [|b r1] Hl1 Hl2 Heq; simpl in *.
  - by inversion Heq.
  - inversion Heq; subst. by destruct (no_complete_no_split y _ r1 r2 Hy Hl2).
  - inversion Heq; subst. rewrite Hy in Hl1. discriminate.
  - inversion Heq; subst.
    apply andb_prop in Hl1 as [_ Hl1].
    destruct (IH r1 Hl1 Hl2) as (-> & -> & ->); auto.
Qed.

Section CompleteTaskTrace.
Context {W : Type} `{!RepBBS W} `{!ContainerDelegate W}.
Variable ResultFileTag : string.
Variable p : taskProcessor.

Implicit Types (logger : Logger) (guid reason : string) (w : W) (c : Container).

Lemma failTask_no_complete logger guid reason w :
  no_complete (trace_of (failTask p logger guid reason w)) = true.
Proof.
  destruct (failTask_trace p logger guid reason w) as (l1 & l2 & ->). reflexivity.
Qed.

Lemma failTask_store_ops logger guid reason w :
  only is_store_op (ops (failTask p logger guid reason w).2) = [OpFailTask guid reason].
Proof. change (_.2) with (trace_of (failTask p logger guid reason w)). by rewrite failTask_ops. Qed.

Lemma startTask_no_complete logger guid w :
  no_complete (trace_of (startTask p logger guid w)) = true.
Proof.
  unfold startTask, Info, Error, deleteContainer. run_proc.
  destruct (StartTask logger guid (cellID p) w) as [[changed [e|]] w']; simpl; run_proc.
  - destruct e; simpl; run_proc; reflexivity.
  - destruct changed; run_proc; reflexivity.
Qed.

Lemma processActiveContainer_no_complete logger c w :
  no_complete (trace_of (processActiveContainer p logger c w)) = true.
Proof.
  unfold processActiveContainer. rewrite trace_bind, no_complete_app.
  rewrite startTask_no_complete; simpl.
  destruct (result_of _); simpl; [|reflexivity].
  rewrite trace_bind, no_complete_app, run_perform; simpl.
  destruct (RunContainer _ _ _) as [[] w2]; simpl; [reflexivity|].
  apply failTask_no_complete.
Qed.

(** The trace of [completeTask] either holds no CompleteTask call (the
    result file could not be fetched), or exactly one, followed on the
    store by what [afterComplete] says. *)
Lemma completeTask_trace logger c w :
  no_complete (trace_of (completeTask ResultFileTag p logger c w)) = true ∨
  ∃ pre post result answer,
    trace_of (completeTask ResultFileTag p logger c w) =
      pre ++ EvCompleteTask logger (Guid c) (cellID p) (Failed (RunResult c))
               (FailureReason (RunResult c)) result answer :: post
    ∧ no_complete pre = true ∧ no_complete post = true
    ∧ only is_store_op (ops post) = afterComplete (Guid c) answer.
Proof.
  unfold completeTask, Info, Error.
  destruct (Failed (RunResult c)); simpl.
  - right. run_proc.
    destruct (CompleteTask _ _ _ _ _ _ w) as [[e|] w1]; simpl; run_proc.
    + eexists [_], _, _, _. split; [reflexivity|]. split; [reflexivity|]. simpl.
      destruct (isTaskStateTransitionError e); [|done].
      split; [apply failTask_no_complete | apply failTask_store_ops].
    + by eexists [_], _, _, _.
  - rewrite trace_bind, run_perform; simpl.
    destruct (FetchContainerResultFile _ _ _ w) as [[content [e|]] w1]; simpl.
    + left. apply failTask_no_complete.
    + right. run_proc.
      destruct (CompleteTask _ _ _ _ _ _ w1) as [[e|] w2]; simpl; run_proc.
      * eexists [_; _], _, _, _. split; [reflexivity|]. split; [reflexivity|]. simpl.
        destruct (isTaskStateTransitionError e); [|done].
        split; [apply failTask_no_complete | apply failTask_store_ops].
      * by eexists [_; _], _, _, _.
Qed.

Lemma Process_other_no_complete logger c w :
  State_ c ≠ StateCompleted →
  no_complete (trace_of (Process ResultFileTag p logger c w)) = true.
Proof.
  intros Hs. unfold Process, Debug.
  destruct (State_ c); try done;
    rewrite !trace_bind, !no_complete_app, !run_emit; simpl;
    try rewrite processActiveContainer_no_complete; reflexivity.
Qed.

Lemma Process_completed_trace logger c w :
  State_ c = StateCompleted →
  ∃ l1 l2 l3,
    trace_of (Process ResultFileTag p logger c w) =
      [l1; l2] ++ trace_of (completeTask ResultFileTag p (sessionLogger logger c) c w)
      ++ [EvDeleteContainer (sessionLogger logger c) (Guid c); l3]
    ∧ is_complete_event l1 = false ∧ is_complete_event l2 = false
    ∧ op_of l3 = None.
Proof.
  intros Hs. unfold Process, processCompletedContainer, deleteContainer, Debug.
  rewrite Hs. rewrite !trace_bind, !run_emit, !run_perform; simpl.
  unfold world_of; simpl. rewrite <- app_assoc; simpl.
  eexists _, _, _. split; [reflexivity|done].
Qed.
End CompleteTaskTrace.

(** ** Properties of the task processor *)

Section TaskProcessorProperties.
Context {W : Type} `{!RepBBS W} `{!ContainerDelegate W}.
Variable ResultFileTag : string.
Variable p : taskProcessor.

Implicit Types (logger : Logger) (w : W) (c : Container).

(** C1: for a container observed in the Completed state the processor calls
    DeleteContainer exactly once, for that container's guid, whatever the
    fetch of the result file, CompleteTask and FailTask answer. *)
Theorem completed_container_deleted_once logger c w :
  State_ c = StateCompleted →
  only is_delete (ops (trace_of (Process ResultFileTag p logger c w))) =
    [OpDeleteContainer (Guid c)].
Proof.
  intros Hs. rewrite Process_completed by done.
  rewrite only_app, completeTask_no_delete. reflexivity.
Qed.

(** C2 (amended): for a container observed in an active state whose
    StartTask succeeds, RunContainer is requested when the store reports
    changed=true (and a refused run marks the task failed); when it reports
    the no-op changed=false the processor logs "task-already-started" and
    stops: StartTask is its only call, and after that line it logs nothing
    but the closing "finished".  The two outcomes are logged apart, each
    with its own line right after StartTask. *)
Theorem active_container_run_when_changed logger c w changed w' :
  active (State_ c) = true →
  StartTask (sessionLogger logger c) (Guid c) (cellID p) w = ((changed, None), w') →
  ops (trace_of (Process ResultFileTag p logger c w)) =
    OpStartTask (Guid c) (cellID p)
    :: (if changed
        then OpRunContainer (Guid c)
             :: (if (RunContainer (sessionLogger logger c) (Guid c) w').1 then []
                 else [OpFailTask (Guid c) "failed to run container"])
        else [])
  ∧ (∃ processing rest,
       trace_of (Process ResultFileTag p logger c w) =
         [EvLog (sessionLogger logger c) DEBUG "starting" None;
          EvLog (sessionLogger logger c) DEBUG processing None;
          EvLog (sessionLogger logger c) INFO "starting-task" None;
          EvStartTask (sessionLogger logger c) (Guid c) (cellID p) changed None;
          EvLog (sessionLogger logger c) INFO
            (if changed then "succeeded-starting-task" else "task-already-started")
            None]
         ++ rest ++ [EvLog (sessionLogger logger c) DEBUG "finished" None]
       ∧ (changed = false → rest = []))
  ∧ (changed = true →
     EvLog (sessionLogger logger c) INFO "task-already-started" None
       ∉ trace_of (Process ResultFileTag p logger c w)).
Proof.
  intros Hs Hst. split; [|split].
  - rewrite Process_active by done.
    destruct changed.
    + by apply processActiveContainer_changed.
    + by eapply processActiveContainer_unchanged.
  - destruct (processActiveContainer_ok_trace p _ _ _ _ _ Hst)
      as (rest & Htrace & Hstop & _).
    unfold Process, Debug. rewrite !trace_bind, !run_emit; simpl.
    destruct (State_ c) eqn:Hstate; try discriminate Hs;
      rewrite trace_bind, run_emit; unfold world_of; simpl; rewrite Htrace; simpl; eauto.
  - intros ->.
    destruct (processActiveContainer_ok_trace p _ _ _ _ _ Hst)
      as (rest & Htrace & _ & Hrest).
    unfold Process, Debug. rewrite !trace_bind, !run_emit; simpl.
    destruct (State_ c) eqn:Hstate; try discriminate Hs;
      (rewrite trace_bind, run_emit; unfold world_of; simpl; rewrite Htrace; simpl;
       intros Hin;
       repeat (apply elem_of_cons in Hin as [Hin|Hin]; [discriminate Hin|]);
       apply elem_of_app in Hin as [Hin|Hin]; [done|];
       apply elem_of_cons in Hin as [Hin|Hin]; [discriminate Hin|];
       by apply elem_of_nil in Hin).
Qed.

(** C4: for a container observed in an active state whose StartTask returns
    an error, the processor deletes the container and requests no run when
    the error is a state-transition error, the task running on a different
    cell, or the record not found; after any other error it neither deletes
    nor runs the container. *)
Theorem start_error_classified logger c w changed e w' :
  active (State_ c) = true →
  StartTask (sessionLogger logger c) (Guid c) (cellID p) w = ((changed, Some e), w') →
  ((∃ d, e = TaskStateTransitionError d) ∨ e = ErrTaskRunningOnDifferentCell
     ∨ e = ErrStoreResourceNotFound →
   ops (trace_of (Process ResultFileTag p logger c w)) =
     [OpStartTask (Guid c) (cellID p); OpDeleteContainer (Guid c)]) ∧
  ((∀ d, e ≠ TaskStateTransitionError d) → e ≠ ErrTaskRunningOnDifferentCell →
     e ≠ ErrStoreResourceNotFound →
   ops (trace_of (Process ResultFileTag p logger c w)) =
     [OpStartTask (Guid c) (cellID p)]).
Proof.
  intros Hs Hst. rewrite Process_active by done.
  erewrite processActiveContainer_err by done.
  split.
  - intros [[d ->]|[->| ->]]; reflexivity.
  - intros Ht Hd Hn. destruct e; simpl; try done. by destruct (Ht detail).
Qed.

(** C6: for a Completed container whose run did not fail, when fetching the
    result file returns an error the processor calls FailTask with the
    reason "failed to fetch result", does not call CompleteTask, and still
    deletes the container. *)
Theorem fetch_failure_fails_task logger c w content e w1 :
  State_ c = StateCompleted →
  Failed (RunResult c) = false →
  FetchContainerResultFile (sessionLogger logger c) (Guid c) (tag c ResultFileTag) w
    = ((content, Some e), w1) →
  ops (trace_of (Process ResultFileTag p logger c w)) =
    [OpFetchContainerResultFile (Guid c) (tag c ResultFileTag);
     OpFailTask (Guid c) "failed to fetch result";
     OpDeleteContainer (Guid c)].
Proof.
  intros Hs Hf Hfetch. rewrite Process_completed by done.
  erewrite completeTask_fetch_failed by done. reflexivity.
Qed.

(** C7: for a Completed container whose run failed, the processor fetches
    nothing and calls CompleteTask, once, with this cell's ID, failed=true,
    the failure reason of the run result and an empty result. *)
Theorem failed_run_completed_without_fetch logger c w :
  State_ c = StateCompleted →
  Failed (RunResult c) = true →
  ∃ rest,
    ops (trace_of (Process ResultFileTag p logger c w)) =
      OpCompleteTask (Guid c) (cellID p) true (FailureReason (RunResult c)) "" :: rest
    ∧ only is_fetch rest = [] ∧ only is_complete rest = [].
Proof.
  intros Hs Hf. rewrite Process_completed by done.
  rewrite completeTask_failed by done. simpl. eexists; split; [reflexivity|].
  destruct (CompleteTask _ _ _ _ _ _ w) as [[e|] w1]; simpl; [|done].
  destruct (isTaskStateTransitionError e); done.
Qed.

(** C10: for a container whose state is none of Reserved, Initializing,
    Created, Running and Completed, Process calls neither the store nor the
    container delegate, and leaves both as they were. *)
Theorem other_state_is_noop logger c w :
  State_ c ≠ StateReserved → State_ c ≠ StateInitializing →
  State_ c ≠ StateCreated → State_ c ≠ StateRunning →
  State_ c ≠ StateCompleted →
  ops (trace_of (Process ResultFileTag p logger c w)) = [] ∧
  world_of (Process ResultFileTag p logger c w) = w.
Proof.
  intros H1 H2 H3 H4 H5. unfold Process, Debug.
  destruct (State_ c); done.
Qed.

(** C8: whenever a CompleteTask call of the processor returns an error, the
    store calls that follow it are exactly one FailTask with the reason
    "invalid state transition" if the error is a state-transition error,
    and none at all for any other error. *)
Theorem complete_error_classified logger c w pre post lg guid cell failed reason result e :
  trace_of (Process ResultFileTag p logger c w) =
    pre ++ EvCompleteTask lg guid cell failed reason result (Some e) :: post →
  ((∃ d, e = TaskStateTransitionError d) →
   only is_store_op (ops post) = [OpFailTask guid "invalid state transition"]) ∧
  ((∀ d, e ≠ TaskStateTransitionError d) →
   only is_store_op (ops post) = []).
Proof.
  intros Htr.
  destruct (decide (State_ c = StateCompleted)) as [Hs|Hs]; cycle 1.
  { exfalso. refine (no_complete_no_split _ _ _ _ _ _ Htr);
      [reflexivity | by apply Process_other_no_complete]. }
  destruct (Process_completed_trace ResultFileTag p logger c w Hs)
    as (l1 & l2 & l3 & Hp & Hl1 & Hl2 & Hl3).
  rewrite Hp in Htr.
  destruct (completeTask_trace ResultFileTag p (sessionLogger logger c) c w)
    as [Hno|(pre0 & post0 & res0 & ans & Ht & Hpre & Hpost & Hafter)].
  { exfalso. refine (no_complete_no_split _ _ _ _ _ _ Htr); [reflexivity|].
    rewrite !no_complete_app, Hno. simpl. rewrite Hl1, Hl2. simpl.
    destruct l3; done. }
  rewrite Ht in Htr.
  assert (([l1; l2] ++ pre0) ++
          EvCompleteTask (sessionLogger logger c) (Guid c) (cellID p)
            (Failed (RunResult c)) (FailureReason (RunResult c)) res0 ans
          :: (post0 ++ [EvDeleteContainer (sessionLogger logger c) (Guid c); l3]) =
          pre ++ EvCompleteTask lg guid cell failed reason result (Some e) :: post)
    as Hsplit.
  { rewrite <- Htr. simpl. by rewrite <- app_assoc. }
  apply split_unique in Hsplit as (_ & Hev & <-); first last.
  - rewrite no_complete_app, Hpost. simpl. by destruct l3.
  - simpl. by rewrite Hl1, Hl2.
  - reflexivity.
  - injection Hev as <- <- <- <- <- <- ->.
    rewrite ops_app, only_app, Hafter. simpl. rewrite Hl3. simpl.
    split.
    + intros [d ->]. reflexivity.
    + intros Hne. destruct e; simpl; try done. by destruct (Hne detail).
Qed.
End TaskProcessorProperties.

(** ** The processor on scripted collaborators *)

Section FakeRuns.
Import fakes fake_runs.

Lemma completed_container_deleted_once_witness :
  State_ (container StateCompleted false "") = StateCompleted ∧
  only is_delete (ops (trace_of (run StateCompleted false "" (allFails kerpow)))) =
    [OpDeleteContainer "task-guid"].
Proof.
  split; [reflexivity|].
  exact (completed_container_deleted_once "result-file" processor logger
           (container StateCompleted false "") (allFails kerpow) eq_refl).
Defined.

(** C2, as stated, fails: the store answers StartTask with no error and
    changed=false for a Running container, and no run is requested. *)
Lemma already_started_requests_no_run :
  active (State_ (container StateRunning false "")) = true ∧
  StartTask (sessionLogger logger (container StateRunning false ""))
    "task-guid" "cell-1" alreadyStarted = ((false, None), alreadyStarted) ∧
  ops (trace_of (run StateRunning false "" alreadyStarted)) =
    [OpStartTask "task-guid" "cell-1"] ∧
  ¬ In (OpRunContainer "task-guid")
      (ops (trace_of (run StateRunning false "" alreadyStarted))).
Proof.
  repeat split. intros [H|[]]. discriminate H.
Qed.

Lemma active_container_run_when_changed_witness :
  ops (trace_of (run StateRunning false "" alreadyStarted)) =
    [OpStartTask "task-guid" "cell-1"]
  ∧ (∃ processing rest,
       trace_of (run StateRunning false "" alreadyStarted) =
         [EvLog (sessionLogger logger (container StateRunning false ""))
            DEBUG "starting" None;
          EvLog (sessionLogger logger (container StateRunning false ""))
            DEBUG processing None;
          EvLog (sessionLogger logger (container StateRunning false ""))
            INFO "starting-task" None;
          EvStartTask (sessionLogger logger (container StateRunning false ""))
            "task-guid" "cell-1" false None;
          EvLog (sessionLogger logger (container StateRunning false ""))
            INFO "task-already-started" None]
         ++ rest
         ++ [EvLog (sessionLogger logger (container StateRunning false ""))
               DEBUG "finished" None]
       ∧ (false = false → rest = []))
  ∧ (false = true →
     EvLog (sessionLogger logger (container StateRunning false ""))
       INFO "task-already-started" None
       ∉ trace_of (run StateRunning false "" alreadyStarted)).
Proof.
  exact (active_container_run_when_changed "result-file" processor logger
           (container StateRunning false "") alreadyStarted false alreadyStarted
           eq_refl eq_refl).
Defined.

Lemma start_error_classified_witness :
  ops (trace_of (run StateCreated false "" (startFails ErrStoreResourceNotFound))) =
    [OpStartTask "task-guid" "cell-1"; OpDeleteContainer "task-guid"] ∧
  ops (trace_of (run StateCreated false "" (startFails kerpow))) =
    [OpStartTask "task-guid" "cell-1"].
Proof.
  split.
  - refine (proj1 (start_error_classified "result-file" processor logger
              (container StateCreated false "") (startFails ErrStoreResourceNotFound)
              false ErrStoreResourceNotFound (startFails ErrStoreResourceNotFound)
              eq_refl eq_refl) _).
    right; right; reflexivity.
  - refine (proj2 (start_error_classified "result-file" processor logger
              (container StateCreated false "") (startFails kerpow)
              false kerpow (startFails kerpow) eq_refl eq_refl) _ _ _);
      discriminate.
Defined.

Lemma fetch_failure_fails_task_witness :
  ops (trace_of (run StateCompleted false "" (allFails kerpow))) =
    [OpFetchContainerResultFile "task-guid" "/tmp/result";
     OpFailTask "task-guid" "failed to fetch result";
     OpDeleteContainer "task-guid"].
Proof.
  exact (fetch_failure_fails_task "result-file" processor logger
           (container StateCompleted false "") (allFails kerpow)
           "" (ErrOther "no such file") (allFails kerpow) eq_refl eq_refl eq_refl).
Defined.

Lemma failed_run_completed_without_fetch_witness :
  ∃ rest,
    ops (trace_of (run StateCompleted true "boom" happy)) =
      OpCompleteTask "task-guid" "cell-1" true "boom" "" :: rest
    ∧ only is_fetch rest = [] ∧ only is_complete rest = [].
Proof.
  exact (failed_run_completed_without_fetch "result-file" processor logger
           (container StateCompleted true "boom") happy eq_refl eq_refl).
Defined.

Lemma complete_error_classified_witness :
  only is_store_op (ops (afterRefusal conflict failing)) =
    [OpFailTask "task-guid" "invalid state transition"] ∧
  only is_store_op (ops (afterRefusal kerpow [])) = [].
Proof.
  split.
  - refine (proj1 (complete_error_classified "result-file" processor logger
              (container StateCompleted true "boom") (completeFails conflict)
              beforeComplete (afterRefusal conflict failing)
              (sessionLogger logger (container StateCompleted true "boom"))
              "task-guid" "cell-1" true "boom" "" conflict eq_refl) _).
    eexists; reflexivity.
  - refine (proj2 (complete_error_classified "result-file" processor logger
              (container StateCompleted true "boom") (completeFails kerpow)
              beforeComplete (afterRefusal kerpow [])
              (sessionLogger logger (container StateCompleted true "boom"))
              "task-guid" "cell-1" true "boom" "" kerpow eq_refl) _).
    discriminate.
Defined.

Lemma other_state_is_noop_witness :
  ops (trace_of (run StateInvalid false "" (allFails kerpow))) = [] ∧
  world_of (run StateInvalid false "" (allFails kerpow)) = allFails kerpow.
Proof.
  refine (other_state_is_noop "result-file" processor logger
            (container StateInvalid false "") (allFails kerpow) _ _ _ _ _);
    discriminate.
Defined.
End FakeRuns.

(** ** Properties of the task scheduler *)

Section SchedulerTest.
Import task_scheduler task_scheduler.test.

(** The admission of section 4.1 meets what the test expects in the
    contexts where a step fails and in the one of the wrong stack. *)
Lemma admission_meets_the_failure_contexts :
  notStarted (handled initializingFails) = true ∧
  deletesTheContainer (handled initializingFails) = true ∧
  deletesTheContainer (handled claimingFails) = true ∧
  hooksHeld (handled claimingFails) = true ∧
  makesTheAllocationRequest (handled reservingFails) = true ∧
  notClaimed (handled reservingFails) = true ∧
  notStarted (handled reservingFails) = true ∧
  notClaimed (handled wrongStack) = true.
Proof. repeat split; vm_compute; reflexivity. Qed.

Local Ltac hooks :=
  simpl;
  unfold fake_AllocateContainer, fake_ClaimTask, fake_InitializeContainer,
    fake_StartTask, fake_Run, fake_DeleteContainer, expect;
  simpl;
  repeat match goal with
    | |- context [match ?x with _ => _ end] => destruct x eqn:?; simpl
    end.

(** The executor's hooks and a refused claim leave the store double as it
    is. *)
Lemma allocate_leaves_store guid req (w : World) :
  fakeBBS (AllocateContainer guid req w).2 = fakeBBS w.
Proof. hooks; reflexivity. Qed.

Lemma delete_leaves_store guid (w : World) :
  fakeBBS (DeleteContainer guid w).2 = fakeBBS w.
Proof. hooks; reflexivity. Qed.

Lemma refused_claim_leaves_store t owner (w : World) e w' :
  ClaimTask t owner w = (Some e, w') → fakeBBS w' = fakeBBS w.
Proof. simpl. unfold fake_ClaimTask. destruct (claimTaskErr _); congruence. Qed.

End SchedulerTest.

(** ** Properties of the admission *)

Section Admission.
Import task_scheduler.
Context {W : Type} `{!TaskBBS W} `{!ExecutorClient W}.
Variable s : TaskScheduler.

Implicit Types (task : Task) (w : W) (c : Container).

Lemma stack_matches task : Stack task = stack s → String.eqb (Stack task) (stack s) = true.
Proof. intros ->. apply String.eqb_refl. Qed.

(** C9: a desired task whose stack is not the cell's is ignored: the
    scheduler makes no call at all, neither on the store nor on the
    executor, and the world is left as it was. *)
Theorem wrong_stack_ignored task w :
  Stack task ≠ stack s →
  trace_of (handleTaskRequest s task w) = [] ∧
  world_of (handleTaskRequest s task w) = w.
Proof.
  intros Hne. unfold handleTaskRequest.
  apply String.eqb_neq in Hne. rewrite Hne. simpl. done.
Qed.

(** C5: when the allocation succeeds and the claim returns an error, the
    scheduler deletes the container once, for the task's guid; its only call
    on the store is the refused claim (no StartTask is made), so that a store
    which a refused claim and the executor's calls leave alone holds
    afterwards what it held before: the task is marked neither Claimed nor
    Started. *)
Theorem claim_failure_rolls_back {V : Type} (store : W → V) task w c w1 e w2 :
  (∀ guid req w, store (AllocateContainer guid req w).2 = store w) →
  (∀ guid w, store (DeleteContainer guid w).2 = store w) →
  (∀ t owner w e w', ClaimTask t owner w = (Some e, w') → store w' = store w) →
  Stack task = stack s →
  AllocateContainer (Guid task) (allocationRequest task) w = ((c, None), w1) →
  ClaimTask task (ExecutorGuid c) w1 = (Some e, w2) →
  trace_of (handleTaskRequest s task w) =
    [CallAllocateContainer (Guid task) (allocationRequest task);
     CallClaimTask task (ExecutorGuid c);
     CallDeleteContainer (Guid task)]
  ∧ List.filter is_delete (trace_of (handleTaskRequest s task w)) =
      [CallDeleteContainer (Guid task)]
  ∧ List.filter is_store (trace_of (handleTaskRequest s task w)) =
      [CallClaimTask task (ExecutorGuid c)]
  ∧ store (world_of (handleTaskRequest s task w)) = store w.
Proof.
  intros Halloc_frame Hdelete_frame Hclaim_frame Hstack Halloc Hclaim.
  unfold handleTaskRequest, allocate, claim, delete.
  rewrite (stack_matches _ Hstack); simpl.
  run_proc.
  rewrite Halloc; simpl. run_proc. rewrite Hclaim; simpl. run_proc.
  repeat split.
  rewrite Hdelete_frame, (Hclaim_frame _ _ _ _ _ Hclaim).
  specialize (Halloc_frame (Guid task) (allocationRequest task) w).
  by rewrite Halloc in Halloc_frame.
Qed.

End Admission.

(** ** The admission in the contexts of the test *)

Section TestRuns.
Import task_scheduler task_scheduler.test.

Lemma wrong_stack_ignored_witness :
  trace_of (handleTaskRequest taskScheduler wrongStackTask wrongStack) = [] ∧
  world_of (handleTaskRequest taskScheduler wrongStackTask wrongStack) = wrongStack.
Proof.
  refine (wrong_stack_ignored taskScheduler wrongStackTask wrongStack _).
  discriminate.
Defined.

Lemma claim_failure_rolls_back_witness :
  trace_of (handleTaskRequest taskScheduler stagingTask claimingFails) =
    [CallAllocateContainer "task-guid-123" (allocationRequest stagingTask);
     CallClaimTask stagingTask "the-executor-guid";
     CallDeleteContainer "task-guid-123"]
  ∧ List.filter is_delete (trace_of (handleTaskRequest taskScheduler stagingTask claimingFails))
    = [CallDeleteContainer "task-guid-123"]
  ∧ List.filter is_store (trace_of (handleTaskRequest taskScheduler stagingTask claimingFails))
    = [CallClaimTask stagingTask "the-executor-guid"]
  ∧ fakeBBS (world_of (handleTaskRequest taskScheduler stagingTask claimingFails))
    = fakeBBS claimingFails.
Proof.
  exact (claim_failure_rolls_back taskScheduler fakeBBS stagingTask claimingFails
           theContainer
           (AllocateContainer "task-guid-123" (allocationRequest stagingTask)
              claimingFails).2
           (ErrOther "data store went away.")
           (AllocateContainer "task-guid-123" (allocationRequest stagingTask)
              claimingFails).2
           allocate_leaves_store delete_leaves_store refused_claim_leaves_store
           eq_refl eq_refl eq_refl).
Defined.

End TestRuns.

(** * Further properties of the task processor *)

Section ProcessorCalls.
Context {W : Type} `{!RepBBS W} `{!ContainerDelegate W}.
Variable ResultFileTag : string.
Variable p : taskProcessor.

Implicit Types (logger : Logger) (w : W) (c : Container).

(** ** The call sequences of [Process] *)

Lemma Process_invalid_ops logger c w :
  State_ c = StateInvalid → ops (trace_of (Process ResultFileTag p logger c w)) = [].
Proof. intros Hs. unfold Process, Debug. rewrite Hs. reflexivity. Qed.

Lemma active_calls_of logger c w :
  active (State_ c) = true →
  active_calls (Guid c) (cellID p) (ops (trace_of (Process ResultFileTag p logger c w))).
Proof.
  intros Hs. rewrite Process_active by done.
  destruct (StartTask (sessionLogger logger c) (Guid c) (cellID p) w)
    as [[changed [e|]] w'] eqn:Hst.
  - erewrite processActiveContainer_err by done. destruct (terminal e); constructor.
  - destruct changed.
    + erewrite processActiveContainer_changed by done.
      destruct (RunContainer _ _ w').1; constructor.
    + erewrite processActiveContainer_unchanged by done. constructor.
Qed.

Lemma completed_calls_of logger c w :
  State_ c = StateCompleted →
  completed_calls (Guid c) (cellID p) (Failed (RunResult c))
    (FailureReason (RunResult c)) (tag c ResultFileTag)
    (ops (trace_of (Process ResultFileTag p logger c w))).
Proof.
  intros Hs. rewrite Process_completed by done.
  destruct (Failed (RunResult c)) eqn:Hf.
  - rewrite completeTask_failed by done. by apply calls_failed_run.
  - destruct (FetchContainerResultFile (sessionLogger logger c) (Guid c)
                (tag c ResultFileTag) w) as [[content [e|]] w1] eqn:Hfetch.
    + erewrite completeTask_fetch_failed by done. by apply calls_fetch_failed.
    + erewrite completeTask_fetched by done. by apply calls_fetched.
Qed.

(** The three cases of a container's state. *)
Lemma State_cases (s : State) :
  s = StateInvalid ∨ active s = true ∨ s = StateCompleted.
Proof. destruct s; auto. Qed.

(** ** What the processor leaves alone *)

(** A container whose task could be started is not deleted by the processor,
    whatever becomes of the run request and of the FailTask that follows a
    refused run. *)
Theorem started_container_not_deleted logger c w changed w' :
  active (State_ c) = true →
  StartTask (sessionLogger logger c) (Guid c) (cellID p) w = ((changed, None), w') →
  only is_delete (ops (trace_of (Process ResultFileTag p logger c w))) = [].
Proof.
  intros Hs Hst. rewrite Process_active by done. destruct changed.
  - erewrite processActiveContainer_changed by done.
    by destruct (RunContainer _ _ w').1.
  - by erewrite processActiveContainer_unchanged.
Qed.

(** An active container is neither fetched from nor completed; a Completed
    one is neither started nor run. *)
Theorem states_keep_to_their_calls logger c w :
  (active (State_ c) = true →
   only (λ o, is_fetch o || is_complete o)
     (ops (trace_of (Process ResultFileTag p logger c w))) = []) ∧
  (State_ c = StateCompleted →
   only (λ o, is_start o || is_run o)
     (ops (trace_of (Process ResultFileTag p logger c w))) = []).
Proof.
  split; intros Hs.
  - destruct (active_calls_of logger c w Hs); reflexivity.
  - destruct (completed_calls_of logger c w Hs) as [|? [e|]|[e|]];
      simpl; try reflexivity;
      destruct (isTaskStateTransitionError e); reflexivity.
Qed.

(** Every call of [Process] is made for the observed container, and every
    store call that names a cell names the processor's own. *)
Theorem calls_keyed_by_container logger c w :
  Forall (λ o, op_guid o = Guid c ∧ ∀ cell, op_cell o = Some cell → cell = cellID p)
    (ops (trace_of (Process ResultFileTag p logger c w))).
Proof.
  destruct (State_cases (State_ c)) as [Hs|[Hs|Hs]].
  - rewrite Process_invalid_ops by done. constructor.
  - destruct (active_calls_of logger c w Hs);
      repeat constructor; simpl; congruence.
  - destruct (completed_calls_of logger c w Hs) as [|? [e|]|[e|]];
      simpl; try destruct (isTaskStateTransitionError e);
      repeat constructor; simpl; congruence.
Qed.

(** ** Failing a task *)

(** [Process] fails a task at most once, for the observed container, and
    with one of three reasons; "task container does not exist" is not among
    them. *)
Theorem fail_reasons_closed logger c w :
  only is_fail (ops (trace_of (Process ResultFileTag p logger c w))) = [] ∨
  ∃ reason,
    only is_fail (ops (trace_of (Process ResultFileTag p logger c w))) =
      [OpFailTask (Guid c) reason]
    ∧ (reason = "failed to run container" ∨ reason = "invalid state transition"
       ∨ reason = "failed to fetch result")
    ∧ reason ≠ TaskCompletionReasonMissingContainer.
Proof.
  destruct (State_cases (State_ c)) as [Hs|[Hs|Hs]].
  - rewrite Process_invalid_ops by done. by left.
  - destruct (active_calls_of logger c w Hs); simpl; eauto.
    right. eexists. split; [reflexivity|]. split; [auto|discriminate].
  - destruct (completed_calls_of logger c w Hs) as [|? [e|]|[e|]];
      simpl; try destruct (isTaskStateTransitionError e); simpl; eauto;
      right; eexists; (split; [reflexivity|]); (split; [auto|discriminate]).
Qed.

(** After a FailTask the processor makes no further call on the store: what
    FailTask answers is logged and changes nothing. *)
Theorem nothing_follows_fail_on_store logger c w pre post guid reason :
  ops (trace_of (Process ResultFileTag p logger c w)) = pre ++ OpFailTask guid reason :: post →
  only is_store_op post = [].
Proof.
  destruct (State_cases (State_ c)) as [Hs|[Hs|Hs]].
  - rewrite Process_invalid_ops by done. by destruct pre.
  - destruct (active_calls_of logger c w Hs); intros Heq;
      repeat (destruct pre as [|? pre]; simplify_eq/=); reflexivity.
  - destruct (completed_calls_of logger c w Hs) as [|? [e|]|[e|]];
      simpl; try destruct (isTaskStateTransitionError e); intros Heq;
      repeat (destruct pre as [|? pre]; simplify_eq/=); reflexivity.
Qed.

(** ** Completing a task *)

(** When the run did not fail, the result file is fetched and CompleteTask
    succeeds, the store is given exactly the content that was fetched, and
    the container is deleted afterwards: three calls in all. *)
Theorem fetched_result_completes_task logger c w content w1 w2 :
  State_ c = StateCompleted →
  Failed (RunResult c) = false →
  FetchContainerResultFile (sessionLogger logger c) (Guid c) (tag c ResultFileTag) w
    = ((content, None), w1) →
  CompleteTask (sessionLogger logger c) (Guid c) (cellID p) false
    (FailureReason (RunResult c)) content w1 = (None, w2) →
  ops (trace_of (Process ResultFileTag p logger c w)) =
    [OpFetchContainerResultFile (Guid c) (tag c ResultFileTag);
     OpCompleteTask (Guid c) (cellID p) false (FailureReason (RunResult c)) content;
     OpDeleteContainer (Guid c)].
Proof.
  intros Hs Hf Hfetch Hcomplete. rewrite Process_completed by done.
  erewrite completeTask_fetched by done. by rewrite Hcomplete.
Qed.

(** A Completed container that carries no result-file tag is fetched from
    all the same, at the empty path. *)
Theorem missing_result_tag_fetches_empty_path logger c w :
  State_ c = StateCompleted →
  Failed (RunResult c) = false →
  Tags c !! ResultFileTag = None →
  head (ops (trace_of (Process ResultFileTag p logger c w))) =
    Some (OpFetchContainerResultFile (Guid c) "").
Proof.
  intros Hs Hf Htag.
  destruct (completed_calls_of logger c w Hs) as [|? ?|?]; [| |congruence];
    unfold tag; rewrite Htag; reflexivity.
Qed.
End ProcessorCalls.

Section ProcessorLog.
Context {W : Type} `{!RepBBS W} `{!ContainerDelegate W}.
Variable ResultFileTag : string.
Variable p : taskProcessor.

Implicit Types (logger lg : Logger) (guid reason : string) (w : W) (c : Container)
  (s t : list event).

(** ** Errors of the store *)

Lemma errors_logged_app lg s t :
  errors_logged lg s → errors_logged lg t → errors_logged lg (s ++ t).
Proof.
  intros Hs Ht ev e Hin Herr. apply elem_of_app in Hin as [Hin|Hin].
  - destruct (Hs ev e Hin Herr) as [msg Hmsg]. exists msg. apply elem_of_app; auto.
  - destruct (Ht ev e Hin Herr) as [msg Hmsg]. exists msg. apply elem_of_app; auto.
Qed.

Lemma errors_logged_quiet lg t :
  Forall (λ ev, store_error ev = None) t → errors_logged lg t.
Proof.
  intros Hq ev e Hin Herr. rewrite Forall_forall in Hq.
  rewrite (Hq ev Hin) in Herr. discriminate.
Qed.

(** Closes [errors_logged] of a trace that is written out. *)
Ltac logged :=
  let ev := fresh "ev" in let e := fresh "e" in
  let Hin := fresh "Hin" in let Herr := fresh "Herr" in
  solve [ intros ev e Hin Herr;
          repeat (apply elem_of_cons in Hin as [->|Hin]);
          try (by apply elem_of_nil in Hin);
          simpl in Herr; simplify_eq;
          eexists; repeat first [apply list_elem_of_here | apply list_elem_of_further] ].

Lemma failTask_errors_logged logger guid reason w :
  errors_logged logger (trace_of (failTask p logger guid reason w)).
Proof.
  unfold failTask, Info, Error. run_proc.
  destruct (FailTask logger guid reason w) as [[e|] w']; simpl; logged.
Qed.

Lemma startTask_errors_logged logger guid w :
  errors_logged logger (trace_of (startTask p logger guid w)).
Proof.
  unfold startTask, Info, Error, deleteContainer. run_proc.
  destruct (StartTask logger guid (cellID p) w) as [[changed [e|]] w']; simpl; run_proc.
  - destruct e; simpl; run_proc; logged.
  - destruct changed; run_proc; logged.
Qed.

Lemma processActiveContainer_errors_logged logger c w :
  errors_logged logger (trace_of (processActiveContainer p logger c w)).
Proof.
  unfold processActiveContainer. rewrite trace_bind.
  apply errors_logged_app; [apply startTask_errors_logged|].
  destruct (result_of _); simpl; [|logged].
  rewrite trace_bind, run_perform; simpl.
  apply (errors_logged_app _ [_]); [logged|].
  destruct (RunContainer _ _ _) as [[] w2]; simpl; [logged|].
  apply failTask_errors_logged.
Qed.

Lemma completeTask_errors_logged logger c w :
  errors_logged logger (trace_of (completeTask ResultFileTag p logger c w)).
Proof.
  unfold completeTask, Info, Error.
  destruct (Failed (RunResult c)); simpl.
  - run_proc.
    destruct (CompleteTask _ _ _ _ _ _ w) as [[e|] w1]; simpl; run_proc; [|logged].
    destruct (isTaskStateTransitionError e); run_proc; [|logged].
    apply (errors_logged_app _ [_; _; _]); [logged|apply failTask_errors_logged].
  - rewrite trace_bind, run_perform; simpl.
    destruct (FetchContainerResultFile _ _ _ w) as [[content [e|]] w1]; simpl.
    + apply (errors_logged_app _ [_]); [logged|apply failTask_errors_logged].
    + run_proc.
      destruct (CompleteTask _ _ _ _ _ _ w1) as [[e|] w2]; simpl; run_proc; [|logged].
      destruct (isTaskStateTransitionError e); run_proc; [|logged].
      apply (errors_logged_app _ [_; _; _; _]); [logged|apply failTask_errors_logged].
Qed.

(** No error of the store goes unreported: whenever StartTask, CompleteTask
    or FailTask answers with an error, the trace of [Process] holds an ERROR
    line of the session logger with that very error. *)
Theorem store_errors_are_logged logger c w ev e :
  ev ∈ trace_of (Process ResultFileTag p logger c w) →
  store_error ev = Some e →
  ∃ msg, EvLog (sessionLogger logger c) ERROR msg (Some e)
           ∈ trace_of (Process ResultFileTag p logger c w).
Proof.
  revert ev e. change (errors_logged (sessionLogger logger c)
                         (trace_of (Process ResultFileTag p logger c w))).
  unfold Process, processCompletedContainer, deleteContainer, Debug.
  rewrite trace_bind. apply (errors_logged_app _ [_]); [logged|].
  rewrite trace_bind. apply errors_logged_app; [|logged].
  rewrite run_emit; simpl.
  destruct (State_ c); try logged;
    rewrite trace_bind, run_emit; simpl;
    (apply (errors_logged_app _ [_]); [logged|]);
    try apply processActiveContainer_errors_logged.
  rewrite trace_bind. apply errors_logged_app; [apply completeTask_errors_logged|].
  rewrite run_perform; simpl. logged.
Qed.
End ProcessorLog.

Section ProcessorLogger.
Context {W : Type} `{!RepBBS W} `{!ContainerDelegate W}.
Variable ResultFileTag : string.
Variable p : taskProcessor.

Implicit Types (logger lg : Logger) (guid reason : string) (w : W) (c : Container).

(** ** The session logger *)

Local Abbreviation under lg := (Forall (λ ev, event_logger ev = lg)).

Lemma failTask_logger logger guid reason w :
  under logger (trace_of (failTask p logger guid reason w)).
Proof.
  destruct (failTask_trace p logger guid reason w) as (l1 & l2 & ->).
  repeat constructor.
Qed.

Lemma startTask_logger logger guid w :
  under logger (trace_of (startTask p logger guid w)).
Proof.
  unfold startTask, Info, Error, deleteContainer. run_proc.
  destruct (StartTask logger guid (cellID p) w) as [[changed [e|]] w']; simpl; run_proc.
  - destruct e; simpl; run_proc; repeat constructor.
  - destruct changed; run_proc; repeat constructor.
Qed.

Lemma processActiveContainer_logger logger c w :
  under logger (trace_of (processActiveContainer p logger c w)).
Proof.
  unfold processActiveContainer. rewrite trace_bind.
  apply Forall_app; split; [apply startTask_logger|].
  destruct (result_of _); simpl; [|constructor].
  rewrite trace_bind, run_perform; simpl.
  constructor; [reflexivity|].
  destruct (RunContainer _ _ _) as [[] w2]; simpl; [constructor|].
  apply failTask_logger.
Qed.

Lemma completeTask_logger logger c w :
  under logger (trace_of (completeTask ResultFileTag p logger c w)).
Proof.
  unfold completeTask, Info, Error.
  destruct (Failed (RunResult c)); simpl.
  - run_proc.
    destruct (CompleteTask _ _ _ _ _ _ w) as [[e|] w1]; simpl; run_proc;
      [|repeat constructor].
    destruct (isTaskStateTransitionError e); run_proc; [|repeat constructor].
    do 3 (constructor; [reflexivity|]). apply failTask_logger.
  - rewrite trace_bind, run_perform; simpl.
    destruct (FetchContainerResultFile _ _ _ w) as [[content [e|]] w1]; simpl.
    + constructor; [reflexivity|]. apply failTask_logger.
    + run_proc.
      destruct (CompleteTask _ _ _ _ _ _ w1) as [[e|] w2]; simpl; run_proc;
        [|repeat constructor].
      destruct (isTaskStateTransitionError e); run_proc; [|repeat constructor].
      do 4 (constructor; [reflexivity|]). apply failTask_logger.
Qed.

End ProcessorLogger.

(** ** On scripted collaborators *)

Section MoreFakeRuns.
Import fakes fake_runs.

Lemma started_container_not_deleted_witness :
  only is_delete (ops (trace_of (run StateRunning false "" (runFails kerpow)))) = [].
Proof.
  exact (started_container_not_deleted "result-file" processor logger
           (container StateRunning false "") (runFails kerpow) true (runFails kerpow)
           eq_refl eq_refl).
Defined.

Lemma states_keep_to_their_calls_witness :
  only (λ o, is_fetch o || is_complete o)
    (ops (trace_of (run StateCreated false "" happy))) = [] ∧
  only (λ o, is_start o || is_run o)
    (ops (trace_of (run StateCompleted false "" happy))) = [].
Proof.
  split.
  - exact (proj1 (states_keep_to_their_calls "result-file" processor logger
                    (container StateCreated false "") happy) eq_refl).
  - exact (proj2 (states_keep_to_their_calls "result-file" processor logger
                    (container StateCompleted false "") happy) eq_refl).
Defined.

Lemma nothing_follows_fail_on_store_witness :
  only is_store_op [OpDeleteContainer "task-guid"] = [].
Proof.
  exact (nothing_follows_fail_on_store "result-file" processor logger
           (container StateCompleted false "") (allFails kerpow)
           [OpFetchContainerResultFile "task-guid" "/tmp/result"]
           [OpDeleteContainer "task-guid"] "task-guid" "failed to fetch result"
           eq_refl).
Defined.

Lemma fetched_result_completes_task_witness :
  ops (trace_of (run StateCompleted false "" happy)) =
    [OpFetchContainerResultFile "task-guid" "/tmp/result";
     OpCompleteTask "task-guid" "cell-1" false "" "42";
     OpDeleteContainer "task-guid"].
Proof.
  exact (fetched_result_completes_task "result-file" processor logger
           (container StateCompleted false "") happy "42" happy happy
           eq_refl eq_refl eq_refl eq_refl).
Defined.

Lemma missing_result_tag_fetches_empty_path_witness :
  head (ops (trace_of (Process "result-file" processor logger untagged happy))) =
    Some (OpFetchContainerResultFile "task-guid" "").
Proof.
  exact (missing_result_tag_fetches_empty_path "result-file" processor logger
           untagged happy eq_refl eq_refl eq_refl).
Defined.

Lemma store_errors_are_logged_witness :
  ∃ msg, EvLog (sessionLogger logger (container StateRunning false "")) ERROR msg
           (Some kerpow)
         ∈ trace_of (run StateRunning false "" (runFails kerpow)).
Proof.
  refine (store_errors_are_logged "result-file" processor logger
            (container StateRunning false "") (runFails kerpow)
            (EvFailTask (sessionLogger logger (container StateRunning false ""))
               "task-guid" "failed to run container" (Some kerpow))
            kerpow _ eq_refl).
  vm_compute. repeat first [apply list_elem_of_here | apply list_elem_of_further].
Defined.
End MoreFakeRuns.

Section ProcessorErrorLines.
Context {W : Type} `{!RepBBS W} `{!ContainerDelegate W}.
Variable ResultFileTag : string.
Variable p : taskProcessor.

Implicit Types (logger lg : Logger) (guid reason : string) (w : W) (c : Container)
  (s t : list event).

(** ** The ERROR lines *)

(** The ERROR lines of [t] report the errors of the store in [t], one for
    one and in order. *)
Local Abbreviation reported t := (omap logged_error t = omap store_error t).

Lemma reported_app s t : reported s → reported t → reported (s ++ t).
Proof. intros Hs Ht. by rewrite !omap_app, Hs, Ht. Qed.

Lemma failTask_reported logger guid reason w :
  reported (trace_of (failTask p logger guid reason w)).
Proof.
  unfold failTask, Info, Error. run_proc.
  by destruct (FailTask logger guid reason w) as [[e|] w'].
Qed.

Lemma startTask_reported logger guid w :
  reported (trace_of (startTask p logger guid w)).
Proof.
  unfold startTask, Info, Error, deleteContainer. run_proc.
  destruct (StartTask logger guid (cellID p) w) as [[changed [e|]] w']; simpl; run_proc.
  - by destruct e; simpl; run_proc.
  - by destruct changed; run_proc.
Qed.

Lemma processActiveContainer_reported logger c w :
  reported (trace_of (processActiveContainer p logger c w)).
Proof.
  unfold processActiveContainer. rewrite trace_bind.
  apply reported_app; [apply startTask_reported|].
  destruct (result_of _); simpl; [|done].
  rewrite trace_bind, run_perform; simpl.
  destruct (RunContainer _ _ _) as [[] w2]; simpl; [done|].
  apply failTask_reported.
Qed.

Lemma completeTask_reported logger c w :
  reported (trace_of (completeTask ResultFileTag p logger c w)).
Proof.
  unfold completeTask, Info, Error.
  destruct (Failed (RunResult c)); simpl.
  - run_proc.
    destruct (CompleteTask _ _ _ _ _ _ w) as [[e|] w1]; simpl; run_proc; [|done].
    destruct (isTaskStateTransitionError e); run_proc; [|done].
    f_equal. apply failTask_reported.
  - rewrite trace_bind, run_perform; simpl.
    destruct (FetchContainerResultFile _ _ _ w) as [[content [e|]] w1]; simpl.
    + apply failTask_reported.
    + run_proc.
      destruct (CompleteTask _ _ _ _ _ _ w1) as [[e|] w2]; simpl; run_proc; [|done].
      destruct (isTaskStateTransitionError e); run_proc; [|done].
      f_equal. apply failTask_reported.
Qed.

(** The ERROR lines of [Process] report exactly the errors StartTask,
    CompleteTask and FailTask answered with, one line for each error and in
    the order of the calls.  The error of a failed fetch of the result file is
    not among them: the processor fails the task and logs nothing of it. *)
Theorem error_lines_match_store_errors logger c w :
  omap logged_error (trace_of (Process ResultFileTag p logger c w)) =
  omap store_error (trace_of (Process ResultFileTag p logger c w)).
Proof.
  unfold Process, processCompletedContainer, deleteContainer, Debug.
  rewrite trace_bind. apply reported_app; [done|].
  rewrite trace_bind. apply reported_app; [|done].
  rewrite run_emit; simpl.
  destruct (State_ c); try done;
    rewrite trace_bind, run_emit; simpl;
    try apply processActiveContainer_reported.
  rewrite trace_bind. apply reported_app; [apply completeTask_reported|].
  by rewrite run_perform.
Qed.
End ProcessorErrorLines.

(** * Further properties of the task scheduler's test *)

Section CallOrder.
Import task_scheduler task_scheduler.test.

Implicit Types (k l : list callKind) (w : World) (c : call) (cs : list call).

Lemma sub_more l k (x : callKind) : l `sublist_of` k → l `sublist_of` k ++ [x].
Proof. apply sublist_inserts_r. Qed.

Lemma sub_next l k (x : callKind) : l `sublist_of` k → l ++ [x] `sublist_of` k ++ [x].
Proof. intros Hsub. by apply sublist_app. Qed.

Lemma held_empty {A} (l : list A) : bool_decide (length l = 0) = true → l = [].
Proof. intros Hl. apply bool_decide_eq_true in Hl. by destruct l. Qed.

Lemma held_one {A} (l : list A) : bool_decide (length l = 1) = true → l ≠ [].
Proof. intros Hl. apply bool_decide_eq_true in Hl. by destruct l. Qed.

(** A call leaves the hooks installed, and a failed expectation noted. *)
Lemma hooks_stay c w : fakeClient (do_call c w) = fakeClient w.
Proof.
  destruct c; simpl;
    unfold fake_AllocateContainer, fake_ClaimTask, fake_InitializeContainer,
      fake_StartTask, fake_Run, fake_DeleteContainer, expect;
    repeat match goal with
      | |- context [match ?x with _ => _ end] => destruct x; simpl
      end; reflexivity.
Qed.

Lemma failures_stay c w : failures (do_call c w) = [] → failures w = [].
Proof.
  destruct c; simpl;
    unfold fake_AllocateContainer, fake_ClaimTask, fake_InitializeContainer,
      fake_StartTask, fake_Run, fake_DeleteContainer, expect;
    repeat match goal with
      | |- context [match ?x with _ => _ end] => destruct x; simpl
      end; auto; by destruct (failures w).
Qed.

(** Closes one clause of [ordered] after a call. *)
Local Ltac clause :=
  intros;
  repeat match goal with
    | H : bool_decide (length _ = 0) = true |- _ => apply held_empty in H
    | H : bool_decide (length _ = 1) = true |- _ => apply held_one in H
    end;
  match goal with
  | |- ?l ++ [_] ≠ [] => by destruct l
  | |- _ ≠ [] => solve [eauto]
  | H : ?l = [], F : _ → ?l ≠ [] |- _ => exfalso; apply F; solve [eauto]
  | |- [?a] `sublist_of` _ ++ [?a] => apply (sub_next []), sublist_nil_l
  | |- _ `sublist_of` _ ++ [_] =>
      first
        [ solve [apply sub_more; eauto]
        | solve [apply (sub_next [_]); eauto]
        | solve [apply (sub_next [_; _]); eauto]
        | solve [apply (sub_next [_; _; _]); eauto]
        | solve [apply (sub_next [_; _; _; _]); eauto] ]
  end.

Lemma ordered_step c k w :
  fakeClient w = reservingSucceeds Initializing Running →
  ordered k w →
  failures (do_call c w) = [] →
  ordered (k ++ [kind_of c]) (do_call c w).
Proof.
  intros Hc [F1 F2 P1 P2 P3 P4 P5].
  destruct c; simpl;
    unfold fake_AllocateContainer, fake_ClaimTask, fake_InitializeContainer,
      fake_StartTask, fake_Run, fake_DeleteContainer, expect;
    rewrite ?Hc; simpl;
    repeat match goal with
      | |- context [match ?x with _ => _ end] => destruct x eqn:?; simpl
      end;
    intros Hheld; try (by destruct (failures w));
    constructor; simpl.
  all: clause.
Qed.

Lemma exec_snoc cs c w : exec (cs ++ [c]) w = do_call c (exec cs w).
Proof. unfold exec. by rewrite fold_left_app. Qed.

Lemma ordered_exec w0 cs :
  fakeClient w0 = reservingSucceeds Initializing Running →
  chans w0 = emptyChans →
  failures (exec cs w0) = [] →
  fakeClient (exec cs w0) = reservingSucceeds Initializing Running ∧
  ordered (kind_of <$> cs) (exec cs w0).
Proof.
  intros Hc Hch. induction cs as [|c cs IH] using rev_ind; intros Hheld.
  - split; [done|]. simpl. constructor; rewrite Hch; simpl; discriminate.
  - rewrite exec_snoc in *. rewrite fmap_app; simpl.
    destruct (IH (failures_stay _ _ Hheld)) as [Hhooks Hord].
    split; [by rewrite hooks_stay|]. by apply ordered_step.
Qed.

(** The expectations of the test fix the order of the calls.  Take the
    doubles with the hooks of the context "and the executor successfully
    starts running the task" installed and nothing sent yet, and any
    sequence of calls on them: if no expectation of a hook fails and the
    three channels the test waits on have received, then the sequence
    allocates, claims, initializes, starts and runs, in this order. *)
Theorem test_fixes_call_order w0 cs :
  fakeClient w0 = reservingSucceeds Initializing Running →
  chans w0 = emptyChans →
  hooksHeld (exec cs w0) = true →
  makesAllCalls (exec cs w0) = true →
  [KAllocate; KClaim; KInitialize; KStart; KRun] `sublist_of` (kind_of <$> cs).
Proof.
  intros Hc Hch Hheld Hall.
  apply bool_decide_eq_true in Hheld.
  destruct (ordered_exec w0 cs Hc Hch Hheld) as [_ Hord].
  unfold makesAllCalls in Hall.
  apply andb_prop in Hall as [Hall Hreq]. apply andb_prop in Hall as [Halloc Hinit].
  by apply (ordered_run _ _ Hord).
Qed.

Lemma test_fixes_call_order_witness :
  [KAllocate; KClaim; KInitialize; KStart; KRun]
    `sublist_of`
    (kind_of <$> [CallAllocateContainer "task-guid-123" (allocationRequest stagingTask);
                  CallClaimTask stagingTask "the-executor-guid";
                  CallInitializeContainer "task-guid-123";
                  CallStartTask stagingTask "the-executor-guid" "task-guid-123";
                  CallRun "task-guid-123" (runRequest stagingTask)]).
Proof.
  exact (test_fixes_call_order startsRunning
           [CallAllocateContainer "task-guid-123" (allocationRequest stagingTask);
            CallClaimTask stagingTask "the-executor-guid";
            CallInitializeContainer "task-guid-123";
            CallStartTask stagingTask "the-executor-guid" "task-guid-123";
            CallRun "task-guid-123" (runRequest stagingTask)]
           eq_refl eq_refl eq_refl eq_refl).
Defined.
End CallOrder.

(** * What the test asks of the scheduler after initialize *)

Section AdmissionTest.
Import task_scheduler task_scheduler.test.

Implicit Types (w : World) (c : call) (cs : list call).

Lemma task_stays c w : task (do_call c w) = task w.
Proof.
  destruct c; simpl;
    unfold fake_AllocateContainer, fake_ClaimTask, fake_InitializeContainer,
      fake_StartTask, fake_Run, fake_DeleteContainer, expect;
    repeat match goal with
      | |- context [match ?x with _ => _ end] => destruct x; simpl
      end; reflexivity.
Qed.

Lemma task_kept cs w : task (exec cs w) = task w.
Proof.
  induction cs as [|c cs IH] using rev_ind; [done|].
  by rewrite exec_snoc, task_stays.
Qed.

(** The clauses of [watched] a call has no part in. *)
Local Ltac carried F1 P1 P2 P3 :=
  let Hi := fresh "Hi" in
  let Hr := fresh "Hr" in
  let Hx := fresh "Hx" in
  let Hsub := fresh "Hsub" in
  match goal with
  | |- _ → _ ≠ [] => exact F1
  | |- _ → [_] `sublist_of` _ =>
      intros Hi; apply sublist_inserts_r; exact (P1 Hi)
  | |- _ → ∀ x, _ → _ =>
      intros Hi ? Hx; destruct (P2 Hi _ Hx) as (? & ? & ? & -> & Hsub);
      do 3 eexists; split; [reflexivity | by apply sublist_inserts_r]
  | |- _ → _ → ∃ t, _ =>
      intros Hi Hr; destruct (P3 Hi Hr) as (? & ? & ? & ? & Hsub & ? & ?);
      do 4 eexists; split; [by apply sublist_inserts_r | done]
  end.

Lemma watched_step c cs w :
  fakeClient w = reservingSucceeds Initializing Running →
  watched cs w →
  failures (do_call c w) = [] →
  watched (cs ++ [c]) (do_call c w).
Proof.
  intros Hc [F1 P1 P2 P3].
  destruct c; simpl;
    unfold fake_AllocateContainer, fake_ClaimTask, fake_InitializeContainer,
      fake_StartTask, fake_Run, fake_DeleteContainer, expect;
    rewrite ?Hc; simpl;
    repeat match goal with
      | |- context [match ?x with _ => _ end] => destruct x eqn:?; simpl
      end;
    intros Hheld; try (by destruct (failures w));
    repeat match goal with
      | H : bool_decide _ = true |- _ => apply bool_decide_eq_true in H
      end;
    try (constructor; simpl; carried F1 P1 P2 P3).
  - (* InitializeContainer, its expectations met *)
    subst guid. constructor; simpl.
    + exact F1.
    + intros _. apply sublist_inserts_l. reflexivity.
    + intros _ x Hx.
      match goal with H : length _ = 0 |- _ => apply length_zero_iff_nil in H; rewrite H in Hx end.
      discriminate Hx.
    + intros _ Hr. exfalso. apply (F1 Hr).
      match goal with H : length _ = 0 |- _ => by apply length_zero_iff_nil in H end.
  - (* StartTask, accepted *)
    constructor; simpl.
    + intros _. by destruct (startedTasks (fakeBBS w)).
    + carried F1 P1 P2 P3.
    + intros Hi x Hx. destruct (startedTasks (fakeBBS w)) as [|y l] eqn:Hst; simpl in Hx.
      * injection Hx as <-. do 3 eexists. split; [reflexivity|].
        apply (sublist_app [_] _ [_] [_]); [exact (P1 Hi) | reflexivity].
      * injection Hx as <-. destruct (P2 Hi y eq_refl) as (? & ? & ? & -> & Hsub).
        do 3 eexists. split; [reflexivity | by apply sublist_inserts_r].
    + carried F1 P1 P2 P3.
  - (* Run, its expectations met *)
    subst guid. constructor; simpl.
    + intros _ Hnil.
      match goal with H : length _ = 1 |- _ => by rewrite Hnil in H end.
    + carried F1 P1 P2 P3.
    + carried F1 P1 P2 P3.
    + intros Hi _.
      match goal with H : _ !! 0 = Some _ |- _ => rewrite <- head_lookup in H;
        destruct (P2 Hi _ H) as (t & e & h & Heq & Hsub) end.
      exists t, e, h, req. split; [|split; [by symmetry | done]].
      apply (sublist_app [_; _] _ [_] [_]); [exact Hsub | reflexivity].
Qed.
Lemma watched_exec w0 cs :
  fakeClient w0 = reservingSucceeds Initializing Running →
  chans w0 = emptyChans →
  failures (exec cs w0) = [] →
  fakeClient (exec cs w0) = reservingSucceeds Initializing Running ∧
  watched cs (exec cs w0).
Proof.
  intros Hc Hch. induction cs as [|c cs IH] using rev_ind; intros Hheld.
  - split; [done|]. simpl. constructor; rewrite Hch; simpl; discriminate.
  - rewrite exec_snoc in *.
    destruct (IH (failures_stay _ _ Hheld)) as [Hhooks Hseen].
    split; [by rewrite hooks_stay|]. by apply watched_step.
Qed.

(** Only a delete call sends on [deletedContainerGuid], and it sends the
    guid it was called with. *)
Lemma deleted_sent c w guid :
  guid ∈ deletedContainerGuid (chans (do_call c w)) →
  guid ∈ deletedContainerGuid (chans w) ∨ c = CallDeleteContainer guid.
Proof.
  destruct c; simpl;
    unfold fake_AllocateContainer, fake_ClaimTask, fake_InitializeContainer,
      fake_StartTask, fake_Run, fake_DeleteContainer, expect;
    repeat match goal with
      | |- context [match ?x with _ => _ end] => destruct x; simpl
      end; auto.
  intros [Hin|Hin]%elem_of_app; [by left|].
  apply list_elem_of_singleton in Hin as ->. by right.
Qed.

Lemma deleted_exec cs w guid :
  guid ∈ deletedContainerGuid (chans (exec cs w)) →
  guid ∈ deletedContainerGuid (chans w) ∨ CallDeleteContainer guid ∈ cs.
Proof.
  induction cs as [|c cs IH] using rev_ind; [by left|].
  rewrite exec_snoc. intros [Hin| ->]%deleted_sent.
  - destruct (IH Hin) as [?|?]; [by left|]. right. apply elem_of_app. by left.
  - right. apply elem_of_app. right. apply list_elem_of_here.
Qed.



End AdmissionTest.

(** * Further properties of the admission *)

Section AdmissionFailures.
Import task_scheduler.
Context {W : Type} `{!TaskBBS W} `{!ExecutorClient W}.
Variable s : TaskScheduler.

Implicit Types (task : Task) (w : W) (c : Container).

(** When the allocation is refused the admission stops there: the executor
    has been asked once, the store not at all, and nothing is deleted, there
    being nothing to undo. *)
Theorem allocation_failure_abandons task w c e w1 :
  Stack task = stack s →
  AllocateContainer (Guid task) (allocationRequest task) w = ((c, Some e), w1) →
  trace_of (handleTaskRequest s task w) =
    [CallAllocateContainer (Guid task) (allocationRequest task)]
  ∧ world_of (handleTaskRequest s task w) = w1.
Proof.
  intros Hstack Halloc. unfold handleTaskRequest, allocate.
  rewrite (stack_matches _ _ Hstack); simpl. run_proc. by rewrite Halloc.
Qed.

(** When the container cannot be initialized it is deleted, once, and the
    task is neither started nor run; the claim made before is not taken
    back: a store that the executor's calls leave alone holds what the claim
    left in it. *)
Theorem initialize_failure_rolls_back {V : Type} (store : W → V) task w c w1 w2 e w3 :
  (∀ guid w, store (InitializeContainer guid w).2 = store w) →
  (∀ guid w, store (DeleteContainer guid w).2 = store w) →
  Stack task = stack s →
  AllocateContainer (Guid task) (allocationRequest task) w = ((c, None), w1) →
  ClaimTask task (ExecutorGuid c) w1 = (None, w2) →
  InitializeContainer (Guid task) w2 = (Some e, w3) →
  trace_of (handleTaskRequest s task w) =
    [CallAllocateContainer (Guid task) (allocationRequest task);
     CallClaimTask task (ExecutorGuid c);
     CallInitializeContainer (Guid task);
     CallDeleteContainer (Guid task)]
  ∧ store (world_of (handleTaskRequest s task w)) = store w2.
Proof.
  intros Hinit_frame Hdelete_frame Hstack Halloc Hclaim Hinit.
  unfold handleTaskRequest, allocate, claim, initialize, delete.
  rewrite (stack_matches _ _ Hstack); simpl. run_proc.
  rewrite Halloc; simpl. run_proc. rewrite Hclaim; simpl. run_proc.
  rewrite Hinit; simpl. run_proc.
  split; [reflexivity|].
  rewrite Hdelete_frame.
  specialize (Hinit_frame (Guid task) w2). by rewrite Hinit in Hinit_frame.
Qed.
End AdmissionFailures.

Section AdmissionFailureRuns.
Import task_scheduler task_scheduler.test.

Lemma initialize_leaves_store guid (w : World) :
  fakeBBS (InitializeContainer guid w).2 = fakeBBS w.
Proof.
  simpl. unfold fake_InitializeContainer, expect.
  repeat match goal with
    | |- context [match ?x with _ => _ end] => destruct x; simpl
    end; reflexivity.
Qed.

Lemma delete_hook_leaves_store guid (w : World) :
  fakeBBS (DeleteContainer guid w).2 = fakeBBS w.
Proof. simpl. unfold fake_DeleteContainer. by destruct (WhenDeletingContainer _). Qed.

Lemma allocation_failure_abandons_witness :
  trace_of (handleTaskRequest taskScheduler stagingTask reservingFails) =
    [CallAllocateContainer "task-guid-123" (allocationRequest stagingTask)]
  ∧ world_of (handleTaskRequest taskScheduler stagingTask reservingFails) =
    (AllocateContainer "task-guid-123" (allocationRequest stagingTask) reservingFails).2.
Proof.
  exact (allocation_failure_abandons taskScheduler stagingTask reservingFails
           noContainer (ErrOther "Something went wrong")
           (AllocateContainer "task-guid-123" (allocationRequest stagingTask)
              reservingFails).2
           eq_refl eq_refl).
Defined.

Lemma initialize_failure_rolls_back_witness :
  trace_of (handleTaskRequest taskScheduler stagingTask initializingFails) =
    [CallAllocateContainer "task-guid-123" (allocationRequest stagingTask);
     CallClaimTask stagingTask "the-executor-guid";
     CallInitializeContainer "task-guid-123";
     CallDeleteContainer "task-guid-123"]
  ∧ fakeBBS (world_of (handleTaskRequest taskScheduler stagingTask initializingFails)) =
    {| claimedTasks := [started stagingTask "the-executor-guid" ""];
       startedTasks := []; claimTaskErr := None; startTaskErr := None |}.
Proof.
  exact (initialize_failure_rolls_back taskScheduler fakeBBS stagingTask initializingFails
           theContainer
           (AllocateContainer "task-guid-123" (allocationRequest stagingTask)
              initializingFails).2
           (ClaimTask stagingTask "the-executor-guid"
              (AllocateContainer "task-guid-123" (allocationRequest stagingTask)
                 initializingFails).2).2
           (ErrOther "Can't initialize")
           (ClaimTask stagingTask "the-executor-guid"
              (AllocateContainer "task-guid-123" (allocationRequest stagingTask)
                 initializingFails).2).2
           initialize_leaves_store delete_hook_leaves_store
           eq_refl eq_refl eq_refl eq_refl).
Defined.
End AdmissionFailureRuns.
